(** * eddeyar: route guard, session verifier, database name and options endpoint

    A shallow embedding of the request-time code of the eddeyar marketplace:

    - [middleware] (middleware.ts) and [getUserFromCookies]
      (utiles/getUserFomCookies.ts), as listed in ARCHITECTURE.md;
    - the module body of lib/mongodb.ts with [getDatabaseName] and [getDb];
    - the [GET] handler of the options-by-id route;
    - the [matcher] of middleware.ts, with a small matcher of regular
      expressions;
    - two callers of the verifier listed in ARCHITECTURE.md: [hasSession]
      of the root layout and the favourites of the home page;
    - [RegisterPage] of app/[locale]/p/users/register/page.tsx.

    JavaScript strings are represented by Rocq strings read as their UTF-8
    bytes.  Every comparison the code makes is against ASCII text, for which
    the byte view and the UTF-16 view of a string agree.

    Asynchronous functions are embedded by the completion of the promise
    they return: a fulfilled promise is [Normal v], a rejected one is
    [Throw e]; [await] is the bind of the monad [Eff].

    The libraries the code calls are parameters: [jwtVerify] of jose,
    the constructor and [connect] of the MongoDB driver, [execute] of
    the Turso client, the printing of an error by the console.  The
    statements on [middleware] are about the function itself, on every
    path; which paths the framework runs it on is the business of the
    [matcher] of its configuration. *)

From Stdlib Require Import String Ascii List ZArith Bool.
From stdpp Require Import base option gmap strings.

Import ListNotations.
Local Open Scope string_scope.

(* ================================================================== *)
(** ** JavaScript values, errors and completions *)

(** The JSON values a decoded token payload can hold.  A property that is
    missing from an object reads as [JsUndefined]. *)
Inductive JsValue : Type :=
  | JsUndefined
  | JsNull
  | JsBool (b : bool)
  | JsNumber (n : Z)
  | JsString (s : string).

(** An [Error] object; only its [message] is ever read. *)
Record JsError : Type := Error { message : string }.

(** How an evaluation ends: with a value, or with a thrown error. *)
Inductive Completion (A : Type) : Type :=
  | Normal (a : A)
  | Throw (e : JsError).
Arguments Normal {A} a.
Arguments Throw {A} e.

(** What a computation sees of the process besides its arguments: the
    clock, read by token verification for the expiry check, and the lines
    written to the console so far (latest first). *)
Record World : Type := mkWorld {
  now : Z;
  console : list string
}.

(** Computations with exceptions over the world. *)
Definition Eff (A : Type) : Type := World -> Completion A * World.

Definition ret {A} (a : A) : Eff A := fun w => (Normal a, w).

Definition throw {A} (e : JsError) : Eff A := fun w => (Throw e, w).

Definition bind {A B} (m : Eff A) (k : A -> Eff B) : Eff B :=
  fun w =>
    match m w with
    | (Normal a, w') => k a w'
    | (Throw e, w') => (Throw e, w')
    end.

(** [try { body } catch (error) { handler }] *)
Definition try_catch {A} (body : Eff A) (handler : JsError -> Eff A) : Eff A :=
  fun w =>
    match body w with
    | (Normal a, w') => (Normal a, w')
    | (Throw e, w') => handler e w'
    end.

(** [console.log(line)] / [console.error(line)] *)
Definition console_log (line : string) : Eff unit :=
  fun w => (Normal tt, {| now := now w; console := line :: console w |}).

(** Lifting of a call whose completion is already known. *)
Definition await {A} (c : Completion A) : Eff A := fun w => (c, w).

(** The completion of a computation, leaving the world aside. *)
Definition result {A} (m : Eff A) (w : World) : Completion A := fst (m w).

Notation "'let!' x ':=' m 'in' k" := (bind m (fun x => k))
  (at level 10, x name, m at level 100, k at level 200).
Notation "m ';;' k" := (bind m (fun _ => k))
  (at level 100, k at level 200, right associativity).

(** [process.env]: a variable is either absent ([undefined]) or a string. *)
Abbreviation Env := (gmap string string).

(** Truthiness of a value that is a string or [undefined]: defined and
    not the empty string. *)
Definition truthy_string (v : option string) : bool :=
  match v with
  | Some s => negb (String.eqb s "")
  | None => false
  end.

(** Truthiness of a value that is an object, or [null] or [undefined]. *)
Definition truthy {A} (v : option A) : bool :=
  match v with
  | Some _ => true
  | None => false
  end.

(** [new TextEncoder().encode(v)]: the UTF-8 bytes of the string; the
    argument defaults to the empty string when it is [undefined]. *)
Definition TextEncoder_encode (v : option string) : list Byte.byte :=
  match v with
  | Some s => list_byte_of_string s
  | None => []
  end.

(** [path.startsWith(p)] *)
Definition startsWith (path p : string) : bool := String.prefix p path.

(* ================================================================== *)
(** ** Session verifier: utiles/getUserFomCookies.ts *)

(** The decoded claims of a token: a JSON object. *)
Abbreviation JWTPayload := (gmap string JsValue).

(** Property access [payload.k]. *)
Definition prop (payload : JWTPayload) (k : string) : JsValue :=
  default JsUndefined (payload !! k).

Module UserData.
Record t : Type := make {
  id : JsValue;
  email : JsValue;
  role : JsValue;
  samsar : JsValue
}.
End UserData.

(** The cookie collection of the request, name to value. *)
Abbreviation CookieStore := (gmap string string).

(** The URL of a request: its path and its query string. *)
Record NextURL : Type := mkURL {
  pathname : string;
  search : string
}.

Record NextRequest : Type := mkRequest {
  nextUrl : NextURL;
  cookies : CookieStore
}.

(** What [middleware] returns: [NextResponse.next()],
    [NextResponse.redirect(url)], or the response of the locale router
    [I18nMiddleware(request)], which is an external collaborator. *)
Inductive MiddlewareResult : Type :=
  | Next
  | Redirect (url : NextURL)
  | I18nMiddleware (request : NextRequest).

(** The condition under which the guard asks for an identity. *)
Definition protectedPath (path : string) : bool :=
  startsWith path "/fr/my" ||
  startsWith path "/ar/my" ||
  startsWith path "/fr/admin".

Section SessionVerifier.

(** [jwtVerify] of the jose library at a given reading of the clock:
    signature check under the key, then expiry check; it returns the
    decoded payload or throws. *)
Variable jwtVerify : Z -> string -> list Byte.byte -> Completion JWTPayload.

(** [process.env] *)
Variable env : Env.

Definition jwtVerify_now (token : string) (secret : list Byte.byte)
  : Eff JWTPayload :=
  fun w => (jwtVerify (now w) token secret, w).

Definition getUserFromCookies (cookieStore : CookieStore)
  : Eff (option UserData.t) :=
  let jwtStore := cookieStore !! "jwt" in
  match jwtStore with
  | Some value =>
      try_catch
        (let secret := TextEncoder_encode (env !! "JWT_SECRET") in
         let token := value in
         let! payload := jwtVerify_now token secret in
         ret (Some {| UserData.id := prop payload "id";
                      UserData.email := prop payload "email";
                      UserData.role := prop payload "roleName";
                      UserData.samsar := prop payload "samsar" |}))
        (fun error =>
           console_log ("JWT verification failed: " ++ message error) ;;
           ret None)
  | None => ret None
  end.

(* ================================================================ *)
(** ** Route guard: middleware.ts *)

Definition middleware (request : NextRequest) : Eff MiddlewareResult :=
  let url := nextUrl request in
  let path := pathname url in
  if String.eqb path "/favicon.ico" then ret Next
  else
    let! userData := getUserFromCookies (cookies request) in
    if protectedPath path then
      if negb (truthy userData) then
        let url := {| pathname := "/p/users/connexion"; search := search url |} in
        ret (Redirect url)
      else ret (I18nMiddleware request)
    else ret (I18nMiddleware request).

End SessionVerifier.

(* ================================================================== *)
(** ** Database module: lib/mongodb.ts *)

(** The class [[^/?]] of the pattern. *)
Definition notSlashQuery (c : ascii) : bool :=
  negb (Ascii.eqb c "/" || Ascii.eqb c "?").

(** The group [(\?|$)] at the rest of the input: what it captures. *)
Definition matchQueryOrEnd (rest : string) : option string :=
  match rest with
  | String c _ => if Ascii.eqb c "?" then Some "?" else None
  | EmptyString => Some ""
  end.

(** [([^/?]+)(\?|$)] at the input: the two captures.  The quantifier is
    greedy: a longer run is tried first, and the matcher backtracks to
    the shorter one when the rest of the pattern fails after it. *)
Fixpoint matchSegment (s : string) : option (string * string) :=
  match s with
  | String c s' =>
      if notSlashQuery c then
        match matchSegment s' with
        | Some (g1, g2) => Some (String c g1, g2)
        | None =>
            match matchQueryOrEnd s' with
            | Some g2 => Some (String c "", g2)
            | None => None
            end
        end
      else None
  | EmptyString => None
  end.

(** [uri.match(/\/([^/?]+)(\?|$)/)]: the leftmost match, as the array
    of the whole match and the two captures, or [None] for [null]. *)
Fixpoint match_uri (uri : string) : option (string * string * string) :=
  match uri with
  | String c s' =>
      if Ascii.eqb c "/" then
        match matchSegment s' with
        | Some (g1, g2) => Some ("/" ++ g1 ++ g2, g1, g2)
        | None => match_uri s'
        end
      else match_uri s'
  | EmptyString => None
  end.

(** [v || d] for a string or [undefined] on the left. *)
Definition or_else (v : option string) (d : string) : string :=
  if truthy_string v then default "" v else d.

Definition getDatabaseName (env : Env) (uri : string) : string :=
  if truthy_string (env !! "DATABASE_NAME") then
    default "" (env !! "DATABASE_NAME")
  else
    let uriMatch := match_uri uri in
    let uriMatch_1 :=
      match uriMatch with
      | Some (_, g1, _) => Some g1
      | None => None
      end in
    if truthy uriMatch && truthy_string uriMatch_1 then
      default "" uriMatch_1
    else
      or_else (env !! "MONGODB_DATABASE") "rim-ebay".

Record MongoClientOptions : Type := mkOptions {
  serverSelectionTimeoutMS : Z;
  connectTimeoutMS : Z
}.

Definition options : MongoClientOptions :=
  {| serverSelectionTimeoutMS := 5000; connectTimeoutMS := 8000 |}.

(** A client of the driver: the connection string and the options it
    was created with. *)
Record MongoClient : Type := mkClient {
  client_uri : string;
  client_options : option MongoClientOptions
}.

(** A database handle, [client.db(name)]. *)
Record Db : Type := mkDb {
  db_client : MongoClient;
  db_databaseName : string
}.

(** [globalForMongo._mongoClientPromise]: unset, or a promise, which is
    represented by its completion. *)
Abbreviation GlobalForMongo := (option (Completion MongoClient)).

(** The bindings of the module once its body has run. *)
Record MongoModule : Type := mkModule {
  uri : string;
  databaseName : string;
  clientPromise : Completion MongoClient
}.

Section Mongodb.

(** The constructor of the driver parses the connection string and the
    options when the client is created: the error it throws when it
    rejects them, or [None] when it accepts them. *)
Variable parse : string -> option MongoClientOptions -> option JsError.

(** [client.connect()] of the driver: the client once connected, or the
    connection error. *)
Variable connect : MongoClient -> Completion MongoClient.

(** [new MongoClient(uri, options)] *)
Definition new_MongoClient (uri : string) (opts : option MongoClientOptions)
  : Eff MongoClient :=
  match parse uri opts with
  | Some e => throw e
  | None => ret (mkClient uri opts)
  end.

(** The module body, run once when the module is first loaded. *)
Definition mongodb (env : Env) (globalForMongo : GlobalForMongo)
  : Eff (MongoModule * GlobalForMongo) :=
  let uri := env !! "DATABASE_URL" in
  if negb (truthy_string uri) then
    throw (Error "Please add MONGODB_URI or DATABASE_URL to your .env")
  else
    let uri := default "" uri in
    let databaseName := getDatabaseName env uri in
    if bool_decide (env !! "NODE_ENV" = Some "development") then
      match globalForMongo with
      | None =>
          let! client := new_MongoClient uri None in
          let globalForMongo := Some (connect client) in
          ret (mkModule uri databaseName (connect client), globalForMongo)
      | Some clientPromise =>
          ret (mkModule uri databaseName clientPromise, globalForMongo)
      end
    else
      let! client := new_MongoClient uri (Some options) in
      let clientPromise := connect client in
      ret (mkModule uri databaseName clientPromise, globalForMongo).

Definition getDb (m : MongoModule) : Eff Db :=
  let! c := await (clientPromise m) in
  ret (mkDb c (databaseName m)).

End Mongodb.

(* ================================================================== *)
(** ** Options by id: the GET route handler *)

(** A row of a result set: an object from column names to values. *)
Abbreviation Row := (list (string * JsValue)).

(** The bodies the handler serialises. *)
Inductive Json : Type :=
  | JsonNull
  | JsonRow (row : Row)
  | JsonFailure (ok : bool) (error : string).

Record NextResponse : Type := mkResponse {
  body : Json;
  status : Z
}.

(** [NextResponse.json(body, { status })] *)
Definition NextResponse_json (body : Json) (status : Z) : Eff NextResponse :=
  ret (mkResponse body status).

Section OptionsById.

(** What the console prints for an [Error] object handed to it as an
    argument: its name, its message and its stack, over several lines. *)
Variable inspect : JsError -> string.

(** [turso.execute(sql, args)]: the rows of the result set, or the
    error of the database client. *)
Variable execute : string -> list string -> Completion (list Row).

(** [console.error(label, error)]: one entry, the label and the printed
    error. *)
Definition console_error (label : string) (error : JsError) : Eff unit :=
  console_log (label ++ " " ++ inspect error).

(** [params] is the promise of the route parameters; it is given by its
    completion, the value of [id] when it is fulfilled. *)
Definition GET (params : Completion string) : Eff NextResponse :=
  try_catch
    (let! id := await params in
     if negb (truthy_string (Some id)) then
       NextResponse_json
         (JsonFailure false "Champs obligatoires manquants") 400
     else
       let! result :=
         await (execute "SELECT * FROM options WHERE id = ?" [id]) in
       let option :=
         match result with
         | row :: _ => JsonRow row
         | [] => JsonNull
         end in
       NextResponse_json option 200)
    (fun error =>
       console_error "options by id GET error:" error ;;
       NextResponse_json (JsonFailure false "Erreur serveur") 500).

End OptionsById.

(* ================================================================== *)
(** ** The matcher of the guard: [config] of middleware.ts *)

(** The regular expressions the matcher needs. *)
Inductive Regex : Type :=
  | Empty
  | Lit (c : ascii)
  | Dot
  | Cat (r1 r2 : Regex)
  | Alt (r1 r2 : Regex)
  | Star (r : Regex)
  | NotAhead (r : Regex).

(** The characters [.] does not match.  A pathname is ASCII (the URL
    parser percent-encodes the rest), so LF and CR are the only line
    terminators that matter. *)
Definition line_terminator (c : ascii) : bool :=
  Ascii.eqb c "010" || Ascii.eqb c "013".

(** The rests of the input after zero or more rounds of [step]; a round
    that consumes nothing is not repeated. *)
Fixpoint star_rems (step : string -> list string) (fuel : nat) (s : string)
  : list string :=
  s :: match fuel with
       | O => []
       | S fuel' =>
           flat_map
             (fun s' =>
                if (String.length s' <? String.length s)%nat
                then star_rems step fuel' s' else [])
             (step s)
       end.

(** The rests of the input after each way the expression matches a
    prefix of it: backtracking, as a list of the alternatives. *)
Fixpoint rems (r : Regex) (s : string) : list string :=
  match r with
  | Empty => [s]
  | Lit c =>
      match s with
      | String d s' => if Ascii.eqb d c then [s'] else []
      | EmptyString => []
      end
  | Dot =>
      match s with
      | String d s' => if line_terminator d then [] else [s']
      | EmptyString => []
      end
  | Cat r1 r2 => flat_map (rems r2) (rems r1 s)
  | Alt r1 r2 => rems r1 s ++ rems r2 s
  | Star r' => star_rems (rems r') (String.length s) s
  | NotAhead r' =>
      match rems r' s with
      | [] => [s]
      | _ :: _ => []
      end
  end.

(** The expression matches the whole input. *)
Definition full_match (r : Regex) (s : string) : bool :=
  existsb (String.eqb "") (rems r s).

(** A run of literal characters. *)
Fixpoint Str (s : string) : Regex :=
  match s with
  | EmptyString => Empty
  | String c s' => Cat (Lit c) (Str s')
  end.

(** What the lookahead of the pattern excludes: the alternatives [api],
    [static], any characters around a literal dot, [_next],
    [favicon.ico] and [robots.txt]; the dots of the last two match any
    character. *)
Definition excluded : Regex :=
  Alt (Str "api")
  (Alt (Str "static")
  (Alt (Cat (Star Dot) (Cat (Lit ".") (Star Dot)))
  (Alt (Str "_next")
  (Alt (Cat (Str "favicon") (Cat Dot (Str "ico")))
       (Cat (Str "robots") (Cat Dot (Str "txt"))))))).

(** The pattern of [config.matcher]: a slash, the negative lookahead,
    then any characters. *)
Definition matcher : Regex :=
  Cat (Lit "/") (Cat (NotAhead excluded) (Star Dot)).

(** The pattern matched against the whole path, from its first to its
    last character.  The framework compiles the matcher into a larger
    pattern, with optional parts before and after this one for its own
    data requests, so it runs [middleware] on these paths at least. *)
Definition matcher_selects (path : string) : bool := full_match matcher path.

(* ================================================================== *)
(** ** Callers of the session verifier *)

(** Truthiness of a JSON value. *)
Definition truthy_value (v : JsValue) : bool :=
  match v with
  | JsUndefined => false
  | JsNull => false
  | JsBool b => b
  | JsNumber n => negb (n =? 0)%Z
  | JsString s => negb (String.eqb s "")
  end.

(** [hasSession] of RootLayout (app/[locale]/layout.tsx):
    [(await cookies()).has("jwt")], handed to the navigation as
    [isAuthenticated]. *)
Definition hasSession (cookieStore : CookieStore) : bool :=
  bool_decide (is_Some (cookieStore !! "jwt")).

(** Property access [row.k] on a document. *)
Fixpoint field (row : Row) (k : string) : JsValue :=
  match row with
  | [] => JsUndefined
  | (k', v) :: row' => if String.eqb k' k then v else field row' k
  end.

Section HomeFavorites.

Variable jwtVerify : Z -> string -> list Byte.byte -> Completion JWTPayload.
Variable env : Env.

(** [db.collection("favorites").find({ userId }).toArray()] *)
Variable find_favorites : JsValue -> Completion (list Row).

(** [String(v)] *)
Variable String_ : JsValue -> string.

(** The favourites of the visitor, as Home (app/[locale]/page.tsx)
    computes them for the list of announcements. *)
Definition favoriteIds (cookieStore : CookieStore) : Eff (list string) :=
  let! user := getUserFromCookies jwtVerify env cookieStore in
  let favoriteIds := [] in
  match user with
  | Some u =>
      if truthy_value (UserData.id u) then
        let! favs := await (find_favorites (UserData.id u)) in
        ret (map (fun f => String_ (field f "annonceId")) favs)
      else ret favoriteIds
  | None => ret favoriteIds
  end.

End HomeFavorites.

(* ================================================================== *)
(** ** Registration page: app/[locale]/p/users/register/page.tsx *)

(** The element [<RegisterFormNumber lang=... urlboot=... />]. *)
Record RegisterFormNumber : Type := mkRegisterFormNumber {
  lang : string;
  urlboot : string
}.

(** [props.params] is the promise of the route parameters; it is given
    by its completion, the value of [locale] when it is fulfilled. *)
Definition RegisterPage (props_params : Completion string)
  : Eff RegisterFormNumber :=
  let! params_locale := await props_params in
  console_log "local cote server" ;;
  console_log ("parmas test " ++ params_locale) ;;
  ret {| lang := params_locale;
         urlboot := "/" ++ params_locale ++ "/api/telegram" |}.

(* ================================================================== *)
(** ** Observations on the guard *)

(** The access decision carried by a result of the guard: the request
    goes on to the page (directly, or through the locale router), or it is
    redirected. *)
Inductive Decision : Type :=
  | PassThrough
  | RedirectTo (url : NextURL).

Definition decision (r : MiddlewareResult) : Decision :=
  match r with
  | Next => PassThrough
  | I18nMiddleware _ => PassThrough
  | Redirect url => RedirectTo url
  end.

(** The decision of a run of the guard, or the error it throws. *)
Definition outcome (m : Eff MiddlewareResult) (w : World) : Completion Decision :=
  match result m w with
  | Normal r => Normal (decision r)
  | Throw e => Throw e
  end.

(** The request without its session cookie. *)
Definition without_session (request : NextRequest) : NextRequest :=
  mkRequest (nextUrl request) (delete "jwt" (cookies request)).

(* ================================================================== *)
(** ** The precedence of the database name, in words *)


(** A variable that is set to the empty string counts as absent. *)
Definition nonempty (v : option string) : option string :=
  match v with
  | Some "" => None
  | _ => v
  end.

(** The same precedence with "set" read as "set to a non-empty string". *)
Definition databaseName_if_nonempty (env : Env) (uri : string) : string :=
  match nonempty (env !! "DATABASE_NAME") with
  | Some name => name
  | None =>
      match match_uri uri with
      | Some (_, segment, _) => segment
      | None =>
          match nonempty (env !! "MONGODB_DATABASE") with
          | Some name => name
          | None => "rim-ebay"
          end
      end
  end.

(* ================================================================== *)
(** ** Observations on strings *)

(** Every character of the string passes the test. *)
Definition all_chars (f : ascii -> bool) (s : string) : bool :=
  forallb f (list_ascii_of_string s).

Definition not_slash (c : ascii) : bool := negb (Ascii.eqb c "/").

Definition not_dot (c : ascii) : bool := negb (Ascii.eqb c ".").

Definition not_terminator (c : ascii) : bool := negb (line_terminator c).

(** The capture of the closing group of the pattern before [tail]. *)
Definition closing (tail : string) : string :=
  match tail with
  | EmptyString => ""
  | String _ _ => "?"
  end.

(** The string and its suffixes, up to the first line terminator. *)
Fixpoint dot_suffixes (s : string) : list string :=
  s :: match s with
       | String c s' => if line_terminator c then [] else dot_suffixes s'
       | EmptyString => []
       end.

(* ================================================================== *)
(** ** Sample data *)

(** A verification primitive for the examples: it accepts the token
    [token-u1] under the key [s3cret] until the clock reads 1000, and
    decodes it to the claims of subject [u1]; the login route signs the
    id, the email and the role only. *)
Definition sample_payload : JWTPayload :=
  {[ "id" := JsString "u1";
     "email" := JsString "u1@example.org";
     "role" := JsString "admin" ]}.

Definition sample_jwtVerify (t : Z) (token : string) (key : list Byte.byte)
  : Completion JWTPayload :=
  if String.eqb token "token-u1"
     && String.eqb (string_of_list_byte key) "s3cret"
     && (t <? 1000)%Z
  then Normal sample_payload
  else Throw (Error "signature verification failed").

Definition sample_env : Env :=
  {[ "JWT_SECRET" := "s3cret";
     "DATABASE_URL" := "mongodb://localhost:27017/rim-ebay" ]}.

Definition sample_world : World := mkWorld 0 [].

Definition request_to (path : string) (cookies : CookieStore) : NextRequest :=
  mkRequest (mkURL path "") cookies.

(** A driver whose connections succeed. *)
Definition sample_connect (client : MongoClient) : Completion MongoClient :=
  Normal client.

(** A constructor that accepts the connection strings of the two
    MongoDB schemes. *)
Definition sample_parse (uri : string) (opts : option MongoClientOptions)
  : option JsError :=
  if startsWith uri "mongodb://" || startsWith uri "mongodb+srv://"
  then None
  else Some (Error "Invalid scheme, expected connection string to start with mongodb:// or mongodb+srv://").

(** The printing of an error by its name and message, without stack. *)
Definition sample_inspect (e : JsError) : string := "Error: " ++ message e.

(** A process environment without the token secret. *)
Definition env_without_secret : Env :=
  {[ "DATABASE_URL" := "mongodb://localhost:27017/rim-ebay" ]}.


(** An options table with the single row of id 7; the id [locked] stands
    for a query on which the client fails. *)
Definition sample_execute (sql : string) (args : list string)
  : Completion (list Row) :=
  match args with
  | [id] =>
      if String.eqb id "7" then
        Normal [[("id", JsNumber 7); ("name", JsString "GPS")]]
      else if String.eqb id "locked" then Throw (Error "SQLITE_BUSY")
      else Normal []
  | _ => Normal []
  end.

(* ================================================================== *)
(** ** The session verifier and the route guard *)

Section GuardFacts.

Variable jwtVerify : Z -> string -> list Byte.byte -> Completion JWTPayload.
Variable env : Env.

(** No cookie named jwt: no identity, and nothing is verified or logged. *)
Lemma getUserFromCookies_absent (cookieStore : CookieStore) (w : World) :
  cookieStore !! "jwt" = None ->
  getUserFromCookies jwtVerify env cookieStore w = (Normal None, w).
Proof.
  intros Hjwt. unfold getUserFromCookies. rewrite Hjwt. reflexivity.
Qed.

(** A token that verifies: the identity is read off the payload. *)
Lemma getUserFromCookies_verified
      (cookieStore : CookieStore) (w : World) token payload :
  cookieStore !! "jwt" = Some token ->
  jwtVerify (now w) token (TextEncoder_encode (env !! "JWT_SECRET")) = Normal payload ->
  getUserFromCookies jwtVerify env cookieStore w =
    (Normal (Some (UserData.make (prop payload "id") (prop payload "email")
                                 (prop payload "roleName")
                                 (prop payload "samsar"))), w).
Proof.
  intros Hjwt Hok. unfold getUserFromCookies. rewrite Hjwt.
  unfold try_catch, bind, jwtVerify_now. rewrite Hok. reflexivity.
Qed.

(** A token that does not verify: the failure is logged, and the answer
    is the one for a missing cookie. *)
Lemma getUserFromCookies_rejected
      (cookieStore : CookieStore) (w : World) token e :
  cookieStore !! "jwt" = Some token ->
  jwtVerify (now w) token (TextEncoder_encode (env !! "JWT_SECRET")) = Throw e ->
  getUserFromCookies jwtVerify env cookieStore w =
    (Normal None,
     mkWorld (now w)
             (("JWT verification failed: " ++ message e) :: console w)).
Proof.
  intros Hjwt Hko. unfold getUserFromCookies. rewrite Hjwt.
  unfold try_catch, bind, jwtVerify_now. rewrite Hko. reflexivity.
Qed.

(** The getUserFromCookies jwtVerify env always completes normally. *)
Lemma getUserFromCookies_total (cookieStore : CookieStore) (w : World) :
  exists r w', getUserFromCookies jwtVerify env cookieStore w = (Normal r, w').
Proof.
  destruct (cookieStore !! "jwt") as [token|] eqn:Hjwt.
  - destruct (jwtVerify (now w) token (TextEncoder_encode (env !! "JWT_SECRET"))) as [payload|e] eqn:Hv.
    + eexists _, _. eapply getUserFromCookies_verified; eassumption.
    + eexists _, _. eapply getUserFromCookies_rejected; eassumption.
  - eexists _, _. apply getUserFromCookies_absent, Hjwt.
Qed.

(** The guard in terms of the answer of the getUserFromCookies jwtVerify env. *)
Lemma middleware_after_verifier (request : NextRequest) (w w' : World) userData :
  pathname (nextUrl request) <> "/favicon.ico" ->
  getUserFromCookies jwtVerify env (cookies request) w = (Normal userData, w') ->
  middleware jwtVerify env request w =
    (Normal (if protectedPath (pathname (nextUrl request))
                && negb (truthy userData)
             then Redirect (mkURL "/p/users/connexion"
                                  (search (nextUrl request)))
             else I18nMiddleware request), w').
Proof.
  intros Hico Hv. unfold middleware.
  apply String.eqb_neq in Hico. rewrite Hico.
  unfold bind. rewrite Hv.
  destruct (protectedPath _), userData; reflexivity.
Qed.

Lemma middleware_favicon (request : NextRequest) (w : World) :
  pathname (nextUrl request) = "/favicon.ico" ->
  middleware jwtVerify env request w = (Normal Next, w).
Proof.
  intros Hico. unfold middleware. rewrite Hico. reflexivity.
Qed.

Lemma protectedPath_not_favicon (path : string) :
  protectedPath path = true -> path <> "/favicon.ico".
Proof.
  intros Hp ->. discriminate Hp.
Qed.

End GuardFacts.

(** The guard's condition, spelled out. *)
Lemma protectedPath_iff (path : string) :
  protectedPath path = true <->
  startsWith path "/fr/my" = true \/
  startsWith path "/ar/my" = true \/
  startsWith path "/fr/admin" = true.
Proof.
  unfold protectedPath. rewrite !orb_true_iff. tauto.
Qed.

(** [startsWith] is the prefix relation of strings. *)
Lemma startsWith_app (p rest : string) : startsWith (p ++ rest) p = true.
Proof.
  unfold startsWith. induction p as [|c p IH]; simpl.
  - destruct rest; reflexivity.
  - destruct (ascii_dec c c) as [_|Hne]; [exact IH | contradiction].
Qed.

(** Every path under one of the three listed prefixes is protected. *)
Lemma protectedPath_listed (rest : string) :
  protectedPath ("/fr/my" ++ rest) = true /\
  protectedPath ("/ar/my" ++ rest) = true /\
  protectedPath ("/fr/admin" ++ rest) = true.
Proof.
  repeat split; apply protectedPath_iff.
  - left. apply startsWith_app.
  - right; left. apply startsWith_app.
  - right; right. apply startsWith_app.
Qed.

(** C1, at the input where the code departs from it: the administrative
    area of the locale ar is not in the guard's list.  [/ar/admin/panel],
    as every path under [/ar/admin], is classified public and served
    without an identity, while the same path under fr is protected and
    redirected. *)
Theorem C1_ar_admin_is_public :
  protectedPath "/ar/admin/panel" = false /\
  protectedPath "/fr/admin/panel" = true /\
  (forall rest, protectedPath ("/ar/admin" ++ rest) = false) /\
  (forall jwtVerify env w,
      middleware jwtVerify env (request_to "/ar/admin/panel" ∅) w =
        (Normal (I18nMiddleware (request_to "/ar/admin/panel" ∅)), w)) /\
  (forall jwtVerify env w,
      middleware jwtVerify env (request_to "/fr/admin/panel" ∅) w =
        (Normal (Redirect (mkURL "/p/users/connexion" "")), w)).
Proof.
  repeat split; reflexivity.
Qed.

(** C2 as stated fails: the request for [/ar/my/list] without a cookie
    is redirected to [/p/users/connexion], which carries no locale
    segment, and not to [/ar/p/users/connexion]. *)
Lemma C2_redirect_has_no_locale :
  cookies (request_to "/ar/my/list" ∅) !! "jwt" = None /\
  exists url,
    result (middleware sample_jwtVerify sample_env
                       (request_to "/ar/my/list" ∅)) sample_world
      = Normal (Redirect url) /\
    pathname url = "/p/users/connexion" /\
    pathname url <> "/ar/p/users/connexion".
Proof.
  split; [reflexivity|].
  exists (mkURL "/p/users/connexion" "").
  repeat split. discriminate.
Qed.

(** C2, amended: a request whose path starts with [/fr/my], [/ar/my] or
    [/fr/admin] and whose cookies hold no session cookie is redirected to
    the fixed path [/p/users/connexion], whatever its locale; the query
    string of the request is kept, and nothing is logged. *)
Theorem C2_redirect_to_fixed_login
        (jwtVerify : Z -> string -> list Byte.byte -> Completion JWTPayload)
        (env : Env) (request : NextRequest) (w : World) :
  protectedPath (pathname (nextUrl request)) = true ->
  cookies request !! "jwt" = None ->
  middleware jwtVerify env request w =
    (Normal (Redirect (mkURL "/p/users/connexion" (search (nextUrl request)))),
     w).
Proof.
  intros Hprot Hjwt.
  rewrite (middleware_after_verifier jwtVerify env request w w None).
  - rewrite Hprot. reflexivity.
  - apply protectedPath_not_favicon, Hprot.
  - apply getUserFromCookies_absent, Hjwt.
Qed.

Lemma C2_redirect_to_fixed_login_witness :
  middleware sample_jwtVerify sample_env
             (mkRequest (mkURL "/fr/my/list" "?page=2") ∅) sample_world =
    (Normal (Redirect (mkURL "/p/users/connexion" "?page=2")), sample_world).
Proof.
  apply (C2_redirect_to_fixed_login sample_jwtVerify sample_env
           (mkRequest (mkURL "/fr/my/list" "?page=2") ∅) sample_world).
  - reflexivity.
  - reflexivity.
Defined.

(** C3: the verifier completes normally on every cookie collection, with
    an identity or with none; and a request whose token fails
    verification (bad signature, expired, malformed) gets from the guard
    the decision of the same request without session cookie, which on a
    protected path is the redirect. *)
Theorem C3_invalid_token_is_no_token
        (jwtVerify : Z -> string -> list Byte.byte -> Completion JWTPayload)
        (env : Env) :
  (forall (cookieStore : CookieStore) (w : World),
      exists r w', getUserFromCookies jwtVerify env cookieStore w
                   = (Normal r, w')) /\
  (forall (request : NextRequest) (w : World) token e,
      cookies request !! "jwt" = Some token ->
      jwtVerify (now w) token (TextEncoder_encode (env !! "JWT_SECRET"))
        = Throw e ->
      result (getUserFromCookies jwtVerify env (cookies request)) w
        = Normal None /\
      outcome (middleware jwtVerify env request) w
        = outcome (middleware jwtVerify env (without_session request)) w /\
      (protectedPath (pathname (nextUrl request)) = true ->
       outcome (middleware jwtVerify env request) w =
         Normal (RedirectTo (mkURL "/p/users/connexion"
                                   (search (nextUrl request)))))).
Proof.
  split.
  - intros cookieStore w. apply getUserFromCookies_total.
  - intros request w token e Hjwt Hko.
    pose proof (getUserFromCookies_rejected jwtVerify env _ w token e Hjwt Hko)
      as Hrej.
    assert (Habs : cookies (without_session request) !! "jwt" = None)
      by apply lookup_delete_eq.
    pose proof (getUserFromCookies_absent jwtVerify env _ w Habs) as Hnone.
    split; [unfold result; rewrite Hrej; reflexivity|].
    destruct (string_dec (pathname (nextUrl request)) "/favicon.ico")
      as [Hico|Hico].
    + split.
      * unfold outcome, result.
        rewrite !middleware_favicon by exact Hico. reflexivity.
      * intros Hprot. rewrite Hico in Hprot. discriminate Hprot.
    + unfold outcome, result.
      rewrite (middleware_after_verifier _ _ request w _ None Hico Hrej).
      rewrite (middleware_after_verifier _ _ (without_session request)
                 w _ None Hico Hnone).
      simpl. split.
      * destruct (protectedPath _); reflexivity.
      * intros ->. reflexivity.
Qed.

Lemma C3_invalid_token_is_no_token_witness :
  outcome (middleware sample_jwtVerify sample_env
             (request_to "/ar/my/list" {[ "jwt" := "token-u1.forged" ]}))
          sample_world
  = outcome (middleware sample_jwtVerify sample_env
               (without_session
                  (request_to "/ar/my/list" {[ "jwt" := "token-u1.forged" ]})))
            sample_world
  /\ outcome (middleware sample_jwtVerify sample_env
                (request_to "/ar/my/list" {[ "jwt" := "token-u1.forged" ]}))
             sample_world
     = Normal (RedirectTo (mkURL "/p/users/connexion" "")).
Proof.
  assert (Hjwt : cookies (request_to "/ar/my/list"
                            {[ "jwt" := "token-u1.forged" ]}) !! "jwt"
                 = Some "token-u1.forged") by (vm_compute; reflexivity).
  assert (Hko : sample_jwtVerify (now sample_world) "token-u1.forged"
                  (TextEncoder_encode (sample_env !! "JWT_SECRET"))
                = Throw (Error "signature verification failed"))
    by (vm_compute; reflexivity).
  destruct (proj2 (C3_invalid_token_is_no_token sample_jwtVerify sample_env)
              _ _ _ _ Hjwt Hko) as (_ & Hsame & Hredirect).
  split; [exact Hsame | apply Hredirect; reflexivity].
Defined.

(** C4: a request whose path matches none of the guard's prefixes passes
    through, whatever its cookies hold: an empty collection, a valid
    token or a token that fails verification.  No match is the public
    case, not an error. *)
Theorem C4_public_passes_through
        (jwtVerify : Z -> string -> list Byte.byte -> Completion JWTPayload)
        (env : Env) (request : NextRequest) (w : World) :
  protectedPath (pathname (nextUrl request)) = false ->
  outcome (middleware jwtVerify env request) w = Normal PassThrough /\
  (result (middleware jwtVerify env request) w = Normal Next \/
   result (middleware jwtVerify env request) w
     = Normal (I18nMiddleware request)).
Proof.
  intros Hpub.
  destruct (string_dec (pathname (nextUrl request)) "/favicon.ico")
    as [Hico|Hico].
  - unfold outcome, result. rewrite middleware_favicon by exact Hico.
    split; [reflexivity | left; reflexivity].
  - destruct (getUserFromCookies_total jwtVerify env (cookies request) w)
      as (userData & w' & Hv).
    unfold outcome, result.
    rewrite (middleware_after_verifier _ _ request w w' userData Hico Hv).
    rewrite Hpub. split; [reflexivity | right; reflexivity].
Qed.

Lemma C4_public_passes_through_witness :
  outcome (middleware sample_jwtVerify sample_env (request_to "/fr/" ∅))
          sample_world = Normal PassThrough /\
  outcome (middleware sample_jwtVerify sample_env
             (request_to "/ar/p/annonces" {[ "jwt" := "garbage" ]}))
          sample_world = Normal PassThrough.
Proof.
  split.
  - apply (C4_public_passes_through sample_jwtVerify sample_env
             (request_to "/fr/" ∅) sample_world).
    reflexivity.
  - apply (C4_public_passes_through sample_jwtVerify sample_env
             (request_to "/ar/p/annonces" {[ "jwt" := "garbage" ]})
             sample_world).
    reflexivity.
Defined.

(** C5: a request to a protected path whose token verifies (valid
    signature, not expired) is handed on to the locale router, and the
    identity the verifier builds has for id the id claim of the payload
    the token decodes to. *)
Theorem C5_valid_token_passes_through
        (jwtVerify : Z -> string -> list Byte.byte -> Completion JWTPayload)
        (env : Env) (request : NextRequest) (w : World) token payload :
  protectedPath (pathname (nextUrl request)) = true ->
  cookies request !! "jwt" = Some token ->
  jwtVerify (now w) token (TextEncoder_encode (env !! "JWT_SECRET"))
    = Normal payload ->
  middleware jwtVerify env request w = (Normal (I18nMiddleware request), w) /\
  outcome (middleware jwtVerify env request) w = Normal PassThrough /\
  exists userData,
    getUserFromCookies jwtVerify env (cookies request) w
      = (Normal (Some userData), w) /\
    UserData.id userData = prop payload "id".
Proof.
  intros Hprot Hjwt Hok.
  pose proof (getUserFromCookies_verified jwtVerify env _ w token payload
                Hjwt Hok) as Hv.
  pose proof (middleware_after_verifier jwtVerify env request w w _
                (protectedPath_not_favicon _ Hprot) Hv) as Hm.
  rewrite Hprot in Hm. simpl in Hm.
  split; [exact Hm|]. split.
  - unfold outcome, result. rewrite Hm. reflexivity.
  - eexists. split; [exact Hv | reflexivity].
Qed.

Lemma C5_valid_token_passes_through_witness :
  outcome (middleware sample_jwtVerify sample_env
             (request_to "/fr/admin/panel" {[ "jwt" := "token-u1" ]}))
          sample_world = Normal PassThrough /\
  exists userData,
    getUserFromCookies sample_jwtVerify sample_env {[ "jwt" := "token-u1" ]}
                       sample_world
      = (Normal (Some userData), sample_world) /\
    UserData.id userData = JsString "u1".
Proof.
  assert (Hjwt : cookies (request_to "/fr/admin/panel"
                            {[ "jwt" := "token-u1" ]}) !! "jwt"
                 = Some "token-u1") by (vm_compute; reflexivity).
  assert (Hok : sample_jwtVerify (now sample_world) "token-u1"
                  (TextEncoder_encode (sample_env !! "JWT_SECRET"))
                = Normal sample_payload) by (vm_compute; reflexivity).
  destruct (C5_valid_token_passes_through sample_jwtVerify sample_env
              (request_to "/fr/admin/panel" {[ "jwt" := "token-u1" ]})
              sample_world "token-u1" sample_payload eq_refl Hjwt Hok)
    as (_ & Hpass & userData & Hv & Hid).
  split; [exact Hpass|].
  exists userData. split; [exact Hv|].
  rewrite Hid. vm_compute. reflexivity.
Defined.

(** C7: when the token verifies, the verifier returns an identity
    whatever fields the payload has; a field the payload lacks is
    undefined in the identity, and nothing is thrown. *)
Theorem C7_missing_fields_are_undefined
        (jwtVerify : Z -> string -> list Byte.byte -> Completion JWTPayload)
        (env : Env) (cookieStore : CookieStore) (w : World) token
        (payload : JWTPayload) :
  cookieStore !! "jwt" = Some token ->
  jwtVerify (now w) token (TextEncoder_encode (env !! "JWT_SECRET"))
    = Normal payload ->
  exists userData,
    getUserFromCookies jwtVerify env cookieStore w
      = (Normal (Some userData), w) /\
    (payload !! "id" = None -> UserData.id userData = JsUndefined) /\
    (payload !! "email" = None -> UserData.email userData = JsUndefined) /\
    (payload !! "roleName" = None -> UserData.role userData = JsUndefined) /\
    (payload !! "samsar" = None -> UserData.samsar userData = JsUndefined) /\
    (forall v, payload !! "id" = Some v -> UserData.id userData = v) /\
    (forall v, payload !! "email" = Some v -> UserData.email userData = v) /\
    (forall v, payload !! "roleName" = Some v -> UserData.role userData = v) /\
    (forall v, payload !! "samsar" = Some v -> UserData.samsar userData = v).
Proof.
  intros Hjwt Hok. eexists. split.
  - eapply getUserFromCookies_verified; eassumption.
  - unfold prop. simpl.
    repeat split; intros; match goal with H : _ !! _ = _ |- _ => rewrite H end;
      reflexivity.
Qed.

Lemma C7_missing_fields_are_undefined_witness :
  exists userData,
    getUserFromCookies sample_jwtVerify sample_env {[ "jwt" := "token-u1" ]}
                       sample_world
      = (Normal (Some userData), sample_world) /\
    UserData.role userData = JsUndefined /\
    UserData.samsar userData = JsUndefined /\
    UserData.email userData = JsString "u1@example.org".
Proof.
  assert (Hjwt : ({[ "jwt" := "token-u1" ]} : CookieStore) !! "jwt"
                 = Some "token-u1") by (vm_compute; reflexivity).
  assert (Hok : sample_jwtVerify (now sample_world) "token-u1"
                  (TextEncoder_encode (sample_env !! "JWT_SECRET"))
                = Normal sample_payload) by (vm_compute; reflexivity).
  destruct (C7_missing_fields_are_undefined sample_jwtVerify sample_env
              {[ "jwt" := "token-u1" ]} sample_world "token-u1"
              sample_payload Hjwt Hok)
    as (userData & Hv & _ & _ & Hrole & Hsamsar & _ & Hemail & _).
  exists userData. split; [exact Hv|].
  split; [apply Hrole; vm_compute; reflexivity|].
  split; [apply Hsamsar; vm_compute; reflexivity|].
  apply Hemail. vm_compute. reflexivity.
Defined.

(** C8: under a primitive whose decoded payload depends on the token and
    the key only, two verifications of a token that is valid at both
    moments give identities with the same fields; neither writes to the
    console, and the cookie collection, which the verifier only reads, is
    the same for both.  Run one after the other, the two calls give the
    same identity twice and leave the world as it was. *)
Theorem C8_verification_is_repeatable
        (jwtVerify : Z -> string -> list Byte.byte -> Completion JWTPayload)
        (env : Env) (cookieStore : CookieStore) (w1 w2 : World) token
        (payload1 payload2 : JWTPayload) :
  (forall t t' tok key p p',
      jwtVerify t tok key = Normal p -> jwtVerify t' tok key = Normal p' ->
      p = p') ->
  cookieStore !! "jwt" = Some token ->
  jwtVerify (now w1) token (TextEncoder_encode (env !! "JWT_SECRET"))
    = Normal payload1 ->
  jwtVerify (now w2) token (TextEncoder_encode (env !! "JWT_SECRET"))
    = Normal payload2 ->
  exists userData,
    getUserFromCookies jwtVerify env cookieStore w1
      = (Normal (Some userData), w1) /\
    getUserFromCookies jwtVerify env cookieStore w2
      = (Normal (Some userData), w2) /\
    (let! first := getUserFromCookies jwtVerify env cookieStore in
     let! second := getUserFromCookies jwtVerify env cookieStore in
     ret (first, second)) w1
      = (Normal (Some userData, Some userData), w1).
Proof.
  intros Hdecode Hjwt Hok1 Hok2.
  assert (payload1 = payload2) as <- by (eapply Hdecode; eassumption).
  pose proof (getUserFromCookies_verified jwtVerify env _ w1 token payload1
                Hjwt Hok1) as Hv1.
  pose proof (getUserFromCookies_verified jwtVerify env _ w2 token payload1
                Hjwt Hok2) as Hv2.
  eexists. split; [exact Hv1|]. split; [exact Hv2|].
  unfold bind. rewrite Hv1, Hv1. reflexivity.
Qed.

Lemma C8_verification_is_repeatable_witness :
  exists userData,
    getUserFromCookies sample_jwtVerify sample_env {[ "jwt" := "token-u1" ]}
                       (mkWorld 0 [])
      = (Normal (Some userData), mkWorld 0 []) /\
    getUserFromCookies sample_jwtVerify sample_env {[ "jwt" := "token-u1" ]}
                       (mkWorld 500 ["first call done"])
      = (Normal (Some userData), mkWorld 500 ["first call done"]).
Proof.
  destruct (C8_verification_is_repeatable sample_jwtVerify sample_env
              {[ "jwt" := "token-u1" ]} (mkWorld 0 [])
              (mkWorld 500 ["first call done"]) "token-u1"
              sample_payload sample_payload)
    as (userData & Hfirst & Hsecond & _).
  - intros t t' tok key p p'. unfold sample_jwtVerify.
    destruct (_ && _ && _), (_ && _ && _); congruence.
  - vm_compute; reflexivity.
  - vm_compute; reflexivity.
  - vm_compute; reflexivity.
  - exists userData. split; [exact Hfirst | exact Hsecond].
Defined.

(* ================================================================== *)
(** ** The database module *)

(** What the pattern captures: a non-empty run free of [/] and [?],
    then [?] or nothing. *)
Lemma matchSegment_captures (s g1 g2 : string) :
  matchSegment s = Some (g1, g2) ->
  g1 <> "" /\
  forallb notSlashQuery (list_ascii_of_string g1) = true /\
  (g2 = "?" \/ g2 = "").
Proof.
  revert g1 g2. induction s as [|c s IH]; simpl; intros g1 g2 Hm.
  - discriminate Hm.
  - destruct (notSlashQuery c) eqn:Hc; [|discriminate Hm].
    destruct (matchSegment s) as [[h1 h2]|].
    + injection Hm as <- <-.
      destruct (IH h1 h2 eq_refl) as (_ & Hall & Hend).
      repeat split; [discriminate | simpl; rewrite Hc; exact Hall | exact Hend].
    + destruct s as [|d s']; simpl in Hm.
      * injection Hm as <- <-.
        repeat split; [discriminate | simpl; rewrite Hc; reflexivity | tauto].
      * destruct (Ascii.eqb d "?"); [|discriminate Hm].
        injection Hm as <- <-.
        repeat split; [discriminate | simpl; rewrite Hc; reflexivity | tauto].
Qed.

Lemma match_uri_captures (uri whole g1 g2 : string) :
  match_uri uri = Some (whole, g1, g2) ->
  g1 <> "" /\ whole = "/" ++ g1 ++ g2.
Proof.
  induction uri as [|c s IH]; simpl; intros Hm.
  - discriminate Hm.
  - destruct (Ascii.eqb c "/"); [|exact (IH Hm)].
    destruct (matchSegment s) as [[h1 h2]|] eqn:Hseg; [|exact (IH Hm)].
    injection Hm as <- <- <-.
    split; [|reflexivity].
    apply (matchSegment_captures s h1 h2 Hseg).
Qed.

Lemma truthy_string_nonempty (v : option string) :
  truthy_string v = truthy (nonempty v).
Proof.
  destruct v as [[|c s]|]; reflexivity.
Qed.

Lemma or_else_nonempty (v : option string) (d : string) :
  or_else v d = default d (nonempty v).
Proof.
  destruct v as [[|c s]|]; reflexivity.
Qed.

(** [getDatabaseName] follows the precedence in which a variable counts
    when it is set to a non-empty string. *)
Lemma getDatabaseName_precedence (env : Env) (uri : string) :
  getDatabaseName env uri = databaseName_if_nonempty env uri.
Proof.
  unfold getDatabaseName, databaseName_if_nonempty.
  rewrite truthy_string_nonempty, or_else_nonempty.
  destruct (env !! "DATABASE_NAME") as [[|c name]|]; simpl;
    try reflexivity.
  all: destruct (match_uri uri) as [[[whole g1] g2]|] eqn:Hm; simpl.
  all: try (destruct (match_uri_captures _ _ _ _ Hm) as [Hne _];
            destruct g1 as [|d g1]; [contradiction | reflexivity]).
  all: destruct (nonempty (env !! "MONGODB_DATABASE")); reflexivity.
Qed.

Section MongodbFacts.

Variable parse : string -> option MongoClientOptions -> option JsError.
Variable connect : MongoClient -> Completion MongoClient.

(** What the module binds when its body completes. *)
Lemma mongodb_bindings (env : Env) (g g' : GlobalForMongo) (w w' : World) m :
  mongodb parse connect env g w = (Normal (m, g'), w') ->
  env !! "DATABASE_URL" = Some (uri m) /\
  databaseName m = getDatabaseName env (uri m) /\
  w' = w.
Proof.
  unfold mongodb, new_MongoClient, bind.
  destruct (env !! "DATABASE_URL") as [u|] eqn:Hu; simpl;
    [|discriminate].
  destruct (negb (String.eqb u "")); simpl; [|discriminate].
  destruct (bool_decide _); [destruct g|];
    try destruct (parse u _); unfold ret, throw;
    intros [= <- _ <-]; simpl; auto.
Qed.

(** How the module came by its connection promise. *)
Lemma mongodb_promise (env : Env) (g g' : GlobalForMongo) (w w' : World) m :
  mongodb parse connect env g w = (Normal (m, g'), w') ->
  if bool_decide (env !! "NODE_ENV" = Some "development") then
    match g with
    | Some p => clientPromise m = p /\ g' = g
    | None =>
        parse (uri m) None = None /\
        clientPromise m = connect (mkClient (uri m) None) /\
        g' = Some (clientPromise m)
    end
  else
    parse (uri m) (Some options) = None /\
    clientPromise m = connect (mkClient (uri m) (Some options)) /\
    g' = g.
Proof.
  unfold mongodb, new_MongoClient, bind.
  destruct (env !! "DATABASE_URL") as [u|] eqn:Hu; simpl;
    [|discriminate].
  destruct (negb (String.eqb u "")); simpl; [|discriminate].
  destruct (bool_decide _); [destruct g|];
    try (destruct (parse u _) eqn:Hparse); unfold ret, throw;
    intros [= <- <- _]; simpl; auto.
Qed.



(** The token secret plays no part in the module body. *)
Lemma mongodb_ignores_secret (env : Env) (g : GlobalForMongo) (w : World) :
  mongodb parse connect (delete "JWT_SECRET" env) g w
    = mongodb parse connect env g w.
Proof.
  unfold mongodb, getDatabaseName.
  rewrite !lookup_delete_ne by discriminate. reflexivity.
Qed.

End MongodbFacts.

(** C6 as stated fails: in a process whose environment lacks the token
    secret, the module body completes without error; the missing secret
    shows on a request that carries a token, as a verification failure
    that is logged and answered with no identity. *)
Lemma C6_missing_secret_is_not_fatal :
  env_without_secret !! "JWT_SECRET" = None /\
  (exists m g,
      mongodb sample_parse sample_connect env_without_secret None
              sample_world
        = (Normal (m, g), sample_world)) /\
  getUserFromCookies sample_jwtVerify env_without_secret
                     {[ "jwt" := "token-u1" ]} sample_world
    = (Normal None,
       mkWorld 0 ["JWT verification failed: signature verification failed"]).
Proof.
  split; [reflexivity|]. split.
  - eexists _, _. vm_compute. reflexivity.
  - vm_compute. reflexivity.
Qed.

(** C6, amended: the token secret is not checked at load.  The
    verifier reads it on each request, with the empty key in the place
    of an absent one, and the module body of the database module does
    the same whether the secret is set or not.  The absence of the
    secret is never raised to the caller: whatever the primitive does
    with the empty key, the verifier completes normally with an identity
    or with none. *)
Theorem C6_secret_is_read_per_request
        (parse : string -> option MongoClientOptions -> option JsError)
        (connect : MongoClient -> Completion MongoClient)
        (jwtVerify : Z -> string -> list Byte.byte -> Completion JWTPayload)
        (env : Env) (g : GlobalForMongo) (cookieStore : CookieStore)
        (w : World) :
  env !! "JWT_SECRET" = None ->
  (forall secret,
      mongodb parse connect (<[ "JWT_SECRET" := secret ]> env) g w
        = mongodb parse connect env g w) /\
  getUserFromCookies jwtVerify env cookieStore w
    = getUserFromCookies jwtVerify (<[ "JWT_SECRET" := "" ]> env) cookieStore w /\
  exists r w', getUserFromCookies jwtVerify env cookieStore w = (Normal r, w').
Proof.
  intros Hsecret. split; [|split].
  - intros secret.
    rewrite <- (mongodb_ignores_secret parse connect
                  (<[ "JWT_SECRET" := secret ]> env)).
    rewrite delete_insert_eq.
    apply mongodb_ignores_secret.
  - unfold getUserFromCookies.
    rewrite Hsecret, lookup_insert_eq. reflexivity.
  - apply getUserFromCookies_total.
Qed.

Lemma C6_secret_is_read_per_request_witness :
  mongodb sample_parse sample_connect
          (<[ "JWT_SECRET" := "s3cret" ]> env_without_secret) None
          sample_world
    = mongodb sample_parse sample_connect env_without_secret None
              sample_world /\
  exists r w',
    getUserFromCookies sample_jwtVerify env_without_secret
                       {[ "jwt" := "token-u1" ]} sample_world = (Normal r, w').
Proof.
  destruct (C6_secret_is_read_per_request sample_parse sample_connect
              sample_jwtVerify env_without_secret None
              {[ "jwt" := "token-u1" ]} sample_world)
    as (Hload & _ & Hrun).
  - reflexivity.
  - split; [apply Hload | exact Hrun].
Defined.




(* ================================================================== *)
(** ** The options-by-id handler *)

Section OptionsByIdFacts.

Variable inspect : JsError -> string.
Variable execute : string -> list string -> Completion (list Row).

Lemma GET_params_rejected (e : JsError) (w : World) :
  GET inspect execute (Throw e) w =
    (Normal (mkResponse (JsonFailure false "Erreur serveur") 500),
     mkWorld (now w)
             (("options by id GET error: " ++ inspect e) :: console w)).
Proof. reflexivity. Qed.

Lemma GET_missing_id (w : World) :
  GET inspect execute (Normal "") w =
    (Normal (mkResponse (JsonFailure false "Champs obligatoires manquants")
                        400), w).
Proof. reflexivity. Qed.

Lemma GET_query (id : string) (w : World) :
  id <> "" ->
  GET inspect execute (Normal id) w =
    match execute "SELECT * FROM options WHERE id = ?" [id] with
    | Normal (row :: _) => (Normal (mkResponse (JsonRow row) 200), w)
    | Normal [] => (Normal (mkResponse JsonNull 200), w)
    | Throw e =>
        (Normal (mkResponse (JsonFailure false "Erreur serveur") 500),
         mkWorld (now w)
                 (("options by id GET error: " ++ inspect e) :: console w))
    end.
Proof.
  intros Hid. unfold GET, try_catch, bind, await. simpl.
  apply String.eqb_neq in Hid. rewrite Hid. simpl.
  destruct (execute "SELECT * FROM options WHERE id = ?" [id]) as [[|row rows]|e]; reflexivity.
Qed.

End OptionsByIdFacts.

(** C10: the handler always answers and never throws.  With a non-empty
    id and no matching row the answer is status 200 with body null; the
    status is 400 exactly when the id is the empty string; and when the
    parameters or the query throw, the answer is status 500 with the
    fixed error body. *)
Theorem C10_options_by_id_GET
        (inspect : JsError -> string)
        (execute : string -> list string -> Completion (list Row))
        (params : Completion string) (w : World) :
  exists response w',
    GET inspect execute params w = (Normal response, w') /\
    (forall id,
        params = Normal id -> id <> "" ->
        execute "SELECT * FROM options WHERE id = ?" [id] = Normal [] ->
        response = mkResponse JsonNull 200) /\
    (status response = 400%Z <-> params = Normal "") /\
    (forall e,
        params = Throw e \/
        (exists id, params = Normal id /\ id <> "" /\
                    execute "SELECT * FROM options WHERE id = ?" [id]
                      = Throw e) ->
        response = mkResponse (JsonFailure false "Erreur serveur") 500).
Proof.
  destruct params as [id|e].
  - destruct (string_dec id "") as [->|Hid].
    + eexists _, _. split; [apply GET_missing_id|].
      split; [intros id [= <-] Hne; contradiction|].
      split; [simpl; tauto|].
      intros e [He|(id & [= <-] & Hne & _)]; [discriminate He | contradiction].
    + rewrite (GET_query inspect execute id w Hid).
      destruct (execute _ [id]) as [[|row rows]|e] eqn:Hq;
        eexists _, _; (split; [reflexivity|]).
      * split; [reflexivity|]. split.
        -- simpl. split; [discriminate | intros [= ->]; contradiction].
        -- intros e [He|(id' & [= <-] & _ & Hthrow)]; [discriminate He|].
           rewrite Hq in Hthrow. discriminate Hthrow.
      * split; [intros id' [= <-] _ Hnone; rewrite Hq in Hnone;
                discriminate Hnone|]. split.
        -- simpl. split; [discriminate | intros [= ->]; contradiction].
        -- intros e [He|(id' & [= <-] & _ & Hthrow)]; [discriminate He|].
           rewrite Hq in Hthrow. discriminate Hthrow.
      * split; [intros id' [= <-] _ Hnone; rewrite Hq in Hnone;
                discriminate Hnone|]. split.
        -- simpl. split; [discriminate | intros [= ->]; contradiction].
        -- reflexivity.
  - eexists _, _. split; [apply GET_params_rejected|].
    split; [intros id Hp; discriminate Hp|]. split.
    + simpl. split; discriminate.
    + reflexivity.
Qed.

Lemma C10_options_by_id_GET_witness :
  result (GET sample_inspect sample_execute (Normal "42")) sample_world
    = Normal (mkResponse JsonNull 200) /\
  result (GET sample_inspect sample_execute (Normal "locked")) sample_world
    = Normal (mkResponse (JsonFailure false "Erreur serveur") 500) /\
  result (GET sample_inspect sample_execute (Normal "")) sample_world
    = Normal (mkResponse (JsonFailure false "Champs obligatoires manquants")
                         400).
Proof.
  split; [|split].
  - destruct (C10_options_by_id_GET sample_inspect sample_execute (Normal "42") sample_world)
      as (response & w' & Hrun & Hnone & _).
    unfold result. rewrite Hrun. simpl. f_equal.
    apply (Hnone "42"); [reflexivity | discriminate | reflexivity].
  - destruct (C10_options_by_id_GET sample_inspect sample_execute (Normal "locked")
                sample_world)
      as (response & w' & Hrun & _ & _ & Hthrow).
    unfold result. rewrite Hrun. simpl. f_equal.
    apply (Hthrow (Error "SQLITE_BUSY")). right.
    exists "locked". split; [reflexivity|]. split; [discriminate|reflexivity].
  - destruct (C10_options_by_id_GET sample_inspect sample_execute (Normal "") sample_world)
      as (response & w' & Hrun & _ & Hstatus & _).
    unfold result. rewrite Hrun. simpl.
    vm_compute in Hrun. injection Hrun as <- _. reflexivity.
Defined.

(* ================================================================== *)
(** ** Further properties of the guard and the verifier *)

(** [startsWith] holds exactly of the strings that continue the prefix. *)
Lemma startsWith_iff (path p : string) :
  startsWith path p = true <-> exists rest, path = p ++ rest.
Proof.
  unfold startsWith. revert path.
  induction p as [|c p IH]; intros path; simpl.
  - split; [intros _; exists path; reflexivity|].
    intros _. destruct path; reflexivity.
  - destruct path as [|d path]; simpl.
    + split; [discriminate | intros [rest Hrest]; discriminate Hrest].
    + destruct (ascii_dec c d) as [->|Hne].
      * rewrite IH. split; intros [rest Hrest]; exists rest.
        -- rewrite Hrest. reflexivity.
        -- injection Hrest as ->. reflexivity.
      * split; [discriminate|].
        intros [rest Hrest]. injection Hrest as -> _. contradiction.
Qed.

(** The verifier leaves the clock alone and writes at most one line, the
    failure of the verification. *)
Lemma getUserFromCookies_world
      (jwtVerify : Z -> string -> list Byte.byte -> Completion JWTPayload)
      (env : Env) (cookieStore : CookieStore) (w : World) :
  exists r w',
    getUserFromCookies jwtVerify env cookieStore w = (Normal r, w') /\
    now w' = now w /\
    (console w' = console w \/
     exists e, r = None /\
               console w'
               = ("JWT verification failed: " ++ message e) :: console w).
Proof.
  destruct (cookieStore !! "jwt") as [token|] eqn:Hjwt.
  - destruct (jwtVerify (now w) token
                (TextEncoder_encode (env !! "JWT_SECRET")))
      as [payload|e] eqn:Hv.
    + eexists _, _. split;
        [eapply getUserFromCookies_verified; eassumption|].
      split; [reflexivity | left; reflexivity].
    + eexists _, _. split;
        [eapply getUserFromCookies_rejected; eassumption|].
      split; [reflexivity | right; exists e; split; reflexivity].
  - eexists _, _. split; [apply getUserFromCookies_absent, Hjwt|].
    split; [reflexivity | left; reflexivity].
Qed.

(** X1: the guard never throws, whatever the verification primitive
    does: every request gets a result.  It leaves the clock alone and
    keeps what is on the console, adding at most the one line of a failed
    verification. *)
Theorem X1_middleware_always_answers
        (jwtVerify : Z -> string -> list Byte.byte -> Completion JWTPayload)
        (env : Env) (request : NextRequest) (w : World) :
  exists r w',
    middleware jwtVerify env request w = (Normal r, w') /\
    now w' = now w /\
    (console w' = console w \/
     exists e, console w'
               = ("JWT verification failed: " ++ message e) :: console w).
Proof.
  destruct (string_dec (pathname (nextUrl request)) "/favicon.ico")
    as [Hico|Hico].
  - eexists _, _. split; [apply middleware_favicon, Hico|].
    split; [reflexivity | left; reflexivity].
  - destruct (getUserFromCookies_world jwtVerify env (cookies request) w)
      as (userData & w' & Hv & Hnow & Hlog).
    eexists _, w'. split;
      [apply (middleware_after_verifier _ _ request w w' userData Hico Hv)|].
    split; [exact Hnow|].
    destruct Hlog as [Hsame|(e & _ & Hline)];
      [left; exact Hsame | right; exists e; exact Hline].
Qed.

(** X2: the guard redirects only a request to a protected path for which
    the verifier found no identity, and only to the login path with the
    query string of the request: a public path, or a visitor whose token
    verifies, is never redirected. *)
Theorem X2_redirect_only_without_identity
        (jwtVerify : Z -> string -> list Byte.byte -> Completion JWTPayload)
        (env : Env) (request : NextRequest) (w w' : World) (url : NextURL) :
  middleware jwtVerify env request w = (Normal (Redirect url), w') ->
  protectedPath (pathname (nextUrl request)) = true /\
  url = mkURL "/p/users/connexion" (search (nextUrl request)) /\
  result (getUserFromCookies jwtVerify env (cookies request)) w = Normal None.
Proof.
  intros Hm.
  destruct (string_dec (pathname (nextUrl request)) "/favicon.ico")
    as [Hico|Hico].
  - rewrite middleware_favicon in Hm by exact Hico. discriminate Hm.
  - destruct (getUserFromCookies_total jwtVerify env (cookies request) w)
      as (userData & w1 & Hv).
    rewrite (middleware_after_verifier _ _ request w w1 userData Hico Hv)
      in Hm.
    unfold result. rewrite Hv. simpl.
    destruct (protectedPath _); [|discriminate Hm].
    destruct userData; simpl in Hm; [discriminate Hm|].
    injection Hm as <- _. repeat split.
Qed.

Lemma X2_redirect_only_without_identity_witness :
  protectedPath "/ar/my/list" = true /\
  result (getUserFromCookies sample_jwtVerify sample_env ∅) sample_world
    = Normal None.
Proof.
  destruct (X2_redirect_only_without_identity sample_jwtVerify sample_env
              (request_to "/ar/my/list" ∅) sample_world sample_world
              (mkURL "/p/users/connexion" ""))
    as (Hprot & _ & Hnone).
  - reflexivity.
  - split; [exact Hprot | exact Hnone].
Defined.

(** X3: a redirect of the guard does not loop.  The request that follows
    the redirect, with whatever cookies, passes through. *)
Theorem X3_redirect_target_passes_through
        (jwtVerify : Z -> string -> list Byte.byte -> Completion JWTPayload)
        (env : Env) (request : NextRequest) (w w' : World) (url : NextURL) :
  middleware jwtVerify env request w = (Normal (Redirect url), w') ->
  forall (cookieStore : CookieStore) (w2 : World),
    outcome (middleware jwtVerify env (mkRequest url cookieStore)) w2
      = Normal PassThrough.
Proof.
  intros Hm cookieStore w2.
  assert (Hurl : pathname url = "/p/users/connexion").
  { destruct (string_dec (pathname (nextUrl request)) "/favicon.ico")
      as [Hico|Hico].
    - rewrite middleware_favicon in Hm by exact Hico. discriminate Hm.
    - destruct (getUserFromCookies_total jwtVerify env (cookies request) w)
        as (userData & w1 & Hv).
      rewrite (middleware_after_verifier _ _ request w w1 userData Hico Hv)
        in Hm.
      destruct (protectedPath _ && _); [|discriminate Hm].
      injection Hm as <- _. reflexivity. }
  destruct (getUserFromCookies_total jwtVerify env cookieStore w2)
    as (userData & w3 & Hv).
  unfold outcome, result.
  rewrite (middleware_after_verifier _ _ (mkRequest url cookieStore)
             w2 w3 userData).
  - simpl. rewrite Hurl. reflexivity.
  - simpl. rewrite Hurl. discriminate.
  - exact Hv.
Qed.

Lemma X3_redirect_target_passes_through_witness :
  outcome (middleware sample_jwtVerify sample_env
             (mkRequest (mkURL "/p/users/connexion" "?page=2")
                        {[ "jwt" := "garbage" ]}))
          sample_world
  = Normal PassThrough.
Proof.
  apply (X3_redirect_target_passes_through sample_jwtVerify sample_env
           (mkRequest (mkURL "/fr/my/list" "?page=2") ∅)
           sample_world sample_world
           (mkURL "/p/users/connexion" "?page=2")).
  reflexivity.
Defined.

(** X4: the token is verified before the path is classified, on every
    path but [/favicon.ico].  A token that fails verification leaves its
    failure on the console on public and protected paths alike; on
    [/favicon.ico] nothing is verified and nothing is written. *)
Theorem X4_token_verified_on_every_page
        (jwtVerify : Z -> string -> list Byte.byte -> Completion JWTPayload)
        (env : Env) (request : NextRequest) (w : World) token e :
  cookies request !! "jwt" = Some token ->
  jwtVerify (now w) token (TextEncoder_encode (env !! "JWT_SECRET"))
    = Throw e ->
  snd (middleware jwtVerify env request w) =
    if String.eqb (pathname (nextUrl request)) "/favicon.ico" then w
    else mkWorld (now w)
                 (("JWT verification failed: " ++ message e) :: console w).
Proof.
  intros Hjwt Hko.
  destruct (String.eqb_spec (pathname (nextUrl request)) "/favicon.ico")
    as [Hico|Hico].
  - rewrite middleware_favicon by exact Hico. reflexivity.
  - rewrite (middleware_after_verifier _ _ request w _ None Hico
               (getUserFromCookies_rejected _ _ _ w token e Hjwt Hko)).
    reflexivity.
Qed.

Lemma X4_token_verified_on_every_page_witness :
  snd (middleware sample_jwtVerify sample_env
         (request_to "/fr/" {[ "jwt" := "garbage" ]}) sample_world)
  = mkWorld 0 ["JWT verification failed: signature verification failed"].
Proof.
  assert (Hjwt : cookies (request_to "/fr/" {[ "jwt" := "garbage" ]}) !! "jwt"
                 = Some "garbage") by (vm_compute; reflexivity).
  assert (Hko : sample_jwtVerify (now sample_world) "garbage"
                  (TextEncoder_encode (sample_env !! "JWT_SECRET"))
                = Throw (Error "signature verification failed"))
    by (vm_compute; reflexivity).
  exact (X4_token_verified_on_every_page sample_jwtVerify sample_env
           (request_to "/fr/" {[ "jwt" := "garbage" ]}) sample_world
           "garbage" (Error "signature verification failed") Hjwt Hko).
Defined.

(** X5: the guard tests prefixes of the path as strings, not segments: a
    path is protected exactly when it continues [/fr/my], [/ar/my] or
    [/fr/admin] with any characters.  So [/fr/mystere] and
    [/fr/administration] are protected as well as [/fr/my/list]. *)
Theorem X5_protected_is_string_prefix (path : string) :
  protectedPath path = true <->
  exists rest,
    path = "/fr/my" ++ rest \/ path = "/ar/my" ++ rest \/
    path = "/fr/admin" ++ rest.
Proof.
  rewrite protectedPath_iff, !startsWith_iff. split.
  - intros [[rest H]|[[rest H]|[rest H]]]; exists rest; tauto.
  - intros [rest [H|[H|H]]]; [left | right; left | right; right];
      exists rest; exact H.
Qed.

(** X6: of the request and the environment, the guard reads the path,
    the session cookie and the token secret, and nothing else.  Two
    requests with the same URL and the same [jwt] cookie, under
    environments with the same JWT_SECRET, get the same decision and
    leave the same console, whatever their other cookies and variables. *)
Theorem X6_guard_reads_session_cookie_only
        (jwtVerify : Z -> string -> list Byte.byte -> Completion JWTPayload)
        (env env' : Env) (request request' : NextRequest) (w : World) :
  nextUrl request = nextUrl request' ->
  cookies request !! "jwt" = cookies request' !! "jwt" ->
  env !! "JWT_SECRET" = env' !! "JWT_SECRET" ->
  outcome (middleware jwtVerify env request) w
    = outcome (middleware jwtVerify env' request') w /\
  snd (middleware jwtVerify env request w)
    = snd (middleware jwtVerify env' request' w) /\
  getUserFromCookies jwtVerify env (cookies request) w
    = getUserFromCookies jwtVerify env' (cookies request') w.
Proof.
  intros Hurl Hjwt Hsecret.
  assert (Hv : getUserFromCookies jwtVerify env (cookies request) w
               = getUserFromCookies jwtVerify env' (cookies request') w).
  { unfold getUserFromCookies. rewrite Hjwt, Hsecret. reflexivity. }
  destruct (string_dec (pathname (nextUrl request)) "/favicon.ico")
    as [Hico|Hico].
  - unfold outcome, result.
    rewrite (middleware_favicon _ _ request w Hico).
    rewrite Hurl in Hico.
    rewrite (middleware_favicon _ _ request' w Hico).
    repeat split. exact Hv.
  - destruct (getUserFromCookies_total jwtVerify env (cookies request) w)
      as (userData & w1 & Hrun).
    unfold outcome, result.
    rewrite (middleware_after_verifier _ _ request w w1 userData Hico Hrun).
    rewrite Hv in Hrun. rewrite Hurl in Hico.
    rewrite (middleware_after_verifier _ _ request' w w1 userData Hico Hrun).
    rewrite Hurl. simpl. split; [|split; [reflexivity | exact Hv]].
    destruct (protectedPath _ && _); reflexivity.
Qed.

Lemma X6_guard_reads_session_cookie_only_witness :
  outcome (middleware sample_jwtVerify sample_env
             (request_to "/fr/my/list"
                {[ "jwt" := "token-u1"; "theme" := "dark" ]}))
          sample_world
  = outcome (middleware sample_jwtVerify
               (<[ "NODE_ENV" := "production" ]> sample_env)
               (request_to "/fr/my/list" {[ "jwt" := "token-u1" ]}))
            sample_world.
Proof.
  apply (X6_guard_reads_session_cookie_only sample_jwtVerify sample_env
           (<[ "NODE_ENV" := "production" ]> sample_env)
           (request_to "/fr/my/list"
              {[ "jwt" := "token-u1"; "theme" := "dark" ]})
           (request_to "/fr/my/list" {[ "jwt" := "token-u1" ]})
           sample_world).
  - reflexivity.
  - vm_compute; reflexivity.
  - vm_compute; reflexivity.
Defined.

(** X7: the layout's [hasSession] only looks for the cookie, the guard
    verifies it.  Whenever the verifier returns an identity,
    [hasSession] is true; but a cookie whose token fails verification
    also makes [hasSession] true, while the verifier finds no identity
    and the guard redirects the protected paths. *)
Theorem X7_hasSession_does_not_verify
        (jwtVerify : Z -> string -> list Byte.byte -> Completion JWTPayload)
        (env : Env) (request : NextRequest) (w : World) :
  (forall userData w',
      getUserFromCookies jwtVerify env (cookies request) w
        = (Normal (Some userData), w') ->
      hasSession (cookies request) = true) /\
  (forall token e,
      cookies request !! "jwt" = Some token ->
      jwtVerify (now w) token (TextEncoder_encode (env !! "JWT_SECRET"))
        = Throw e ->
      hasSession (cookies request) = true /\
      result (getUserFromCookies jwtVerify env (cookies request)) w
        = Normal None /\
      (protectedPath (pathname (nextUrl request)) = true ->
       outcome (middleware jwtVerify env request) w
         = Normal (RedirectTo (mkURL "/p/users/connexion"
                                     (search (nextUrl request)))))).
Proof.
  split.
  - intros userData w' Hv. unfold hasSession.
    destruct (cookies request !! "jwt") as [token|] eqn:Hjwt.
    + apply bool_decide_eq_true. eexists. reflexivity.
    + rewrite getUserFromCookies_absent in Hv by exact Hjwt.
      discriminate Hv.
  - intros token e Hjwt Hko.
    pose proof (getUserFromCookies_rejected jwtVerify env _ w token e
                  Hjwt Hko) as Hrej.
    split; [|split].
    + unfold hasSession. rewrite Hjwt.
      apply bool_decide_eq_true. eexists. reflexivity.
    + unfold result. rewrite Hrej. reflexivity.
    + intros Hprot. unfold outcome, result.
      rewrite (middleware_after_verifier _ _ request w _ None
                 (protectedPath_not_favicon _ Hprot) Hrej).
      rewrite Hprot. reflexivity.
Qed.

Lemma X7_hasSession_does_not_verify_witness :
  hasSession {[ "jwt" := "garbage" ]} = true /\
  result (getUserFromCookies sample_jwtVerify sample_env
            {[ "jwt" := "garbage" ]}) sample_world = Normal None /\
  outcome (middleware sample_jwtVerify sample_env
             (request_to "/fr/my/list" {[ "jwt" := "garbage" ]}))
          sample_world
    = Normal (RedirectTo (mkURL "/p/users/connexion" "")).
Proof.
  assert (Hjwt : cookies (request_to "/fr/my/list"
                            {[ "jwt" := "garbage" ]}) !! "jwt"
                 = Some "garbage") by (vm_compute; reflexivity).
  assert (Hko : sample_jwtVerify (now sample_world) "garbage"
                  (TextEncoder_encode (sample_env !! "JWT_SECRET"))
                = Throw (Error "signature verification failed"))
    by (vm_compute; reflexivity).
  destruct (proj2 (X7_hasSession_does_not_verify sample_jwtVerify sample_env
                     (request_to "/fr/my/list" {[ "jwt" := "garbage" ]})
                     sample_world)
              "garbage" (Error "signature verification failed") Hjwt Hko)
    as (Hhas & Hnone & Hredirect).
  split; [exact Hhas|]. split; [exact Hnone|].
  apply Hredirect. reflexivity.
Defined.

(** X8: the favourites are asked of the database only for a verified
    identity with a truthy id.  Without identity, or with an identity
    whose id is missing, null, false, zero or empty, the list is empty
    and the query is not run: the result is the same whatever the query
    would return or throw. *)
Theorem X8_favorites_need_an_identity
        (jwtVerify : Z -> string -> list Byte.byte -> Completion JWTPayload)
        (env : Env) (find_favorites : JsValue -> Completion (list Row))
        (String_ : JsValue -> string)
        (cookieStore : CookieStore) (w w' : World) user :
  getUserFromCookies jwtVerify env cookieStore w = (Normal user, w') ->
  (user = None \/
   exists u, user = Some u /\ truthy_value (UserData.id u) = false) ->
  favoriteIds jwtVerify env find_favorites String_ cookieStore w
    = (Normal [], w').
Proof.
  intros Hv Hno. unfold favoriteIds, bind. rewrite Hv.
  destruct Hno as [->|(u & -> & Hid)]; [reflexivity|].
  rewrite Hid. reflexivity.
Qed.

Lemma X8_favorites_need_an_identity_witness :
  favoriteIds sample_jwtVerify sample_env
              (fun _ => Throw (Error "MongoNetworkError"))
              (fun _ => "") {[ "jwt" := "garbage" ]} sample_world
  = (Normal [],
     mkWorld 0 ["JWT verification failed: signature verification failed"]).
Proof.
  apply (X8_favorites_need_an_identity sample_jwtVerify sample_env
           (fun _ => Throw (Error "MongoNetworkError")) (fun _ => "")
           {[ "jwt" := "garbage" ]} sample_world
           (mkWorld 0
              ["JWT verification failed: signature verification failed"])
           None).
  - vm_compute; reflexivity.
  - left; reflexivity.
Defined.

(* ================================================================== *)
(** ** Further properties of the database module *)

Lemma string_app_cons (c : ascii) (s t : string) :
  String c s ++ t = String c (s ++ t).
Proof. reflexivity. Qed.

Lemma string_app_nil (s : string) : "" ++ s = s.
Proof. reflexivity. Qed.

Lemma string_app_assoc (s t u : string) : (s ++ t) ++ u = s ++ t ++ u.
Proof.
  induction s as [|c s IH]; [reflexivity|].
  rewrite !string_app_cons, IH. reflexivity.
Qed.

(** The pattern at a position, from a decomposition of the input: a
    non-empty run of the class, then the end of the input or [?]. *)
Lemma matchSegment_complete (g1 post : string) :
  g1 <> "" ->
  forallb notSlashQuery (list_ascii_of_string g1) = true ->
  (post = "" \/ exists q, post = "?" ++ q) ->
  matchSegment (g1 ++ post)
    = Some (g1, match post with EmptyString => "" | String _ _ => "?" end).
Proof.
  intros Hne Hclass Hpost.
  induction g1 as [|c g1 IH]; [contradiction|].
  simpl in Hclass. apply andb_true_iff in Hclass as [Hc Hclass].
  simpl. rewrite Hc.
  destruct g1 as [|d g1].
  - simpl. destruct Hpost as [->|[q ->]]; reflexivity.
  - rewrite IH by (discriminate || exact Hclass). reflexivity.
Qed.

(** What a match at a position looks like in the input. *)
Lemma matchSegment_sound (s g1 g2 : string) :
  matchSegment s = Some (g1, g2) ->
  exists post,
    s = g1 ++ g2 ++ post /\
    ((g2 = "" /\ post = "") \/ g2 = "?").
Proof.
  revert g1 g2. induction s as [|c s IH]; simpl; intros g1 g2 Hm.
  - discriminate Hm.
  - destruct (notSlashQuery c); [|discriminate Hm].
    destruct (matchSegment s) as [[h1 h2]|].
    + injection Hm as <- <-.
      destruct (IH h1 h2 eq_refl) as (post & -> & Hend).
      exists post. split; [reflexivity | exact Hend].
    + destruct s as [|d s']; simpl in Hm.
      * injection Hm as <- <-. exists "". split; [reflexivity | tauto].
      * destruct (Ascii.eqb_spec d "?") as [->|_]; [|discriminate Hm].
        injection Hm as <- <-. exists s'. split; [reflexivity | tauto].
Qed.

(** A place of the input where the pattern matches: after [pre], a slash,
    the run [g1] of the class, and then the end or a question mark. *)
Lemma match_uri_finds (pre g1 post : string) :
  g1 <> "" ->
  forallb notSlashQuery (list_ascii_of_string g1) = true ->
  (post = "" \/ exists q, post = "?" ++ q) ->
  match_uri (pre ++ "/" ++ g1 ++ post) <> None.
Proof.
  intros Hne Hclass Hpost.
  induction pre as [|c pre IH]; simpl.
  - change (String.append "" (g1 ++ post)) with (g1 ++ post).
    rewrite (matchSegment_complete g1 post Hne Hclass Hpost). discriminate.
  - destruct (Ascii.eqb c "/"); [|exact IH].
    destruct (matchSegment _) as [[h1 h2]|]; [discriminate | exact IH].
Qed.

(** X9: [match_uri] is the search of the pattern
    slash, one or more characters other than slash and question mark,
    then a question mark or the end of the input.  It fails exactly when
    the pattern matches nowhere; what it returns is a match, with the
    run and the closing group as captures; and no match starts further
    left. *)
Theorem X9_match_uri_is_the_leftmost_match (uri : string) :
  (match_uri uri = None <->
   forall pre g1 post,
     uri = pre ++ "/" ++ g1 ++ post ->
     g1 <> "" ->
     forallb notSlashQuery (list_ascii_of_string g1) = true ->
     ~ (post = "" \/ exists q, post = "?" ++ q)) /\
  (forall whole g1 g2,
      match_uri uri = Some (whole, g1, g2) ->
      exists pre post,
        uri = pre ++ whole ++ post /\
        whole = "/" ++ g1 ++ g2 /\
        g1 <> "" /\
        forallb notSlashQuery (list_ascii_of_string g1) = true /\
        ((g2 = "" /\ post = "") \/ g2 = "?") /\
        forall pre' g1' post',
          uri = pre' ++ "/" ++ g1' ++ post' ->
          g1' <> "" ->
          forallb notSlashQuery (list_ascii_of_string g1') = true ->
          (post' = "" \/ exists q, post' = "?" ++ q) ->
          (String.length pre <= String.length pre')%nat).
Proof.
  split.
  - split.
    + intros Hnone pre g1 post -> Hne Hclass Hpost.
      exact (match_uri_finds pre g1 post Hne Hclass Hpost Hnone).
    + intros Hno. destruct (match_uri uri) as [[[whole g1] g2]|] eqn:Hm;
        [exfalso | reflexivity].
      revert Hno Hm. induction uri as [|c s IH]; simpl; intros Hno Hm.
      * discriminate Hm.
      * assert (Hrec : match_uri s = Some (whole, g1, g2) -> False).
        { apply IH. intros pre h1 post -> Hne Hclass Hpost.
          exact (Hno (String c pre) h1 post eq_refl Hne Hclass Hpost). }
        destruct (Ascii.eqb_spec c "/") as [->|_]; [|exact (Hrec Hm)].
        destruct (matchSegment s) as [[h1 h2]|] eqn:Hseg; [|exact (Hrec Hm)].
        destruct (matchSegment_captures s h1 h2 Hseg) as (Hne & Hclass & _).
        destruct (matchSegment_sound s h1 h2 Hseg) as (post & -> & Hend).
        apply (Hno "" h1 (h2 ++ post) eq_refl Hne Hclass).
        destruct Hend as [[-> ->] | ->]; [left | right; exists post];
          reflexivity.
  - induction uri as [|c s IH]; simpl; intros whole g1 g2 Hm.
    + discriminate Hm.
    + assert (Hrec : match_uri s = Some (whole, g1, g2) ->
                     (c <> "/"%char \/ matchSegment s = None) ->
                     exists pre post,
                       String c s = pre ++ whole ++ post /\
                       whole = "/" ++ g1 ++ g2 /\
                       g1 <> "" /\
                       forallb notSlashQuery (list_ascii_of_string g1) = true /\
                       ((g2 = "" /\ post = "") \/ g2 = "?") /\
                       forall pre' g1' post',
                         String c s = pre' ++ "/" ++ g1' ++ post' ->
                         g1' <> "" ->
                         forallb notSlashQuery (list_ascii_of_string g1') = true ->
                         (post' = "" \/ exists q, post' = "?" ++ q) ->
                         (String.length pre <= String.length pre')%nat).
      { intros Hs Hhere.
        destruct (IH whole g1 g2 Hs)
          as (pre & post & Heq & Hwhole & Hne & Hclass & Hend & Hleft).
        exists (String c pre), post.
        split; [rewrite Heq, !string_app_cons; reflexivity|].
        split; [exact Hwhole|]. split; [exact Hne|].
        split; [exact Hclass|]. split; [exact Hend|].
        intros pre' g1' post' Hdec Hne' Hclass' Hpost'.
        destruct pre' as [|c' pre'];
          rewrite ?string_app_cons, ?string_app_nil in Hdec.
        - exfalso. injection Hdec as -> ->.
          destruct Hhere as [Hc|Hseg]; [contradiction|].
          rewrite matchSegment_complete in Hseg by assumption.
          discriminate Hseg.
        - injection Hdec as _ Hdec. simpl.
          apply le_n_S. exact (Hleft pre' g1' post' Hdec Hne' Hclass' Hpost'). }
      destruct (Ascii.eqb_spec c "/") as [->|Hc];
        [|apply Hrec; [exact Hm | left; exact Hc]].
      destruct (matchSegment s) as [[h1 h2]|] eqn:Hseg;
        [|apply Hrec; [exact Hm | right; reflexivity]].
      injection Hm as <- <- <-.
      destruct (matchSegment_captures s h1 h2 Hseg) as (Hne & Hclass & _).
      destruct (matchSegment_sound s h1 h2 Hseg) as (post & -> & Hend).
      exists "", post.
      split; [rewrite !string_app_cons, !string_app_nil, string_app_assoc;
              reflexivity|].
      split; [reflexivity|]. split; [exact Hne|].
      split; [exact Hclass|]. split; [exact Hend|].
      intros. apply Nat.le_0_l.
Qed.

Lemma all_chars_cons (f : ascii -> bool) (c : ascii) (s : string) :
  all_chars f (String c s) = f c && all_chars f s.
Proof. reflexivity. Qed.

Lemma all_chars_app (f : ascii -> bool) (s t : string) :
  all_chars f (s ++ t) = all_chars f s && all_chars f t.
Proof.
  induction s as [|c s IH]; [reflexivity|].
  rewrite string_app_cons, !all_chars_cons, IH. apply andb_assoc.
Qed.

(** A stretch without slash holds no start of a match. *)
Lemma match_uri_skip (pre s : string) :
  all_chars not_slash pre = true ->
  match_uri (pre ++ s) = match_uri s.
Proof.
  induction pre as [|c pre IH]; [reflexivity|].
  rewrite all_chars_cons, string_app_cons.
  intros [Hc Hpre]%andb_true_iff. simpl.
  unfold not_slash in Hc. apply negb_true_iff in Hc. rewrite Hc.
  exact (IH Hpre).
Qed.

Lemma match_uri_no_slash (s : string) :
  all_chars not_slash s = true -> match_uri s = None.
Proof.
  induction s as [|c s IH]; [reflexivity|].
  rewrite all_chars_cons. intros [Hc Hs]%andb_true_iff. simpl.
  unfold not_slash in Hc. apply negb_true_iff in Hc. rewrite Hc.
  exact (IH Hs).
Qed.

Lemma segment_chars_not_slash (s : string) :
  all_chars notSlashQuery s = true -> all_chars not_slash s = true.
Proof.
  induction s as [|c s IH]; [reflexivity|].
  rewrite !all_chars_cons. intros [Hc Hs]%andb_true_iff.
  rewrite (IH Hs), andb_true_r.
  unfold notSlashQuery in Hc. unfold not_slash.
  destruct (Ascii.eqb c "/"); [discriminate Hc | reflexivity].
Qed.

(** A run that ends on a slash is no match: the pattern wants the end of
    the input or a question mark there. *)
Lemma matchSegment_before_slash (host rest : string) :
  all_chars notSlashQuery host = true ->
  matchSegment (host ++ String "/" rest) = None.
Proof.
  induction host as [|c host IH]; [reflexivity|].
  rewrite all_chars_cons, string_app_cons.
  intros [Hc Hhost]%andb_true_iff. simpl. rewrite Hc, (IH Hhost).
  destruct host as [|d host]; [reflexivity|].
  rewrite string_app_cons. simpl.
  rewrite all_chars_cons in Hhost. apply andb_true_iff in Hhost as [Hd _].
  unfold notSlashQuery in Hd.
  destruct (Ascii.eqb d "?"); [|reflexivity].
  rewrite orb_true_r in Hd. discriminate Hd.
Qed.

Lemma getDatabaseName_of_match (env : Env) (uri whole g1 g2 : string) :
  truthy_string (env !! "DATABASE_NAME") = false ->
  match_uri uri = Some (whole, g1, g2) ->
  getDatabaseName env uri = g1.
Proof.
  intros Hname Hm. unfold getDatabaseName. rewrite Hname, Hm. simpl.
  destruct (match_uri_captures _ _ _ _ Hm) as [Hne _].
  destruct g1; [contradiction | reflexivity].
Qed.

(** X10: from a connection string of the usual form
    scheme://host/database, with or without options after a question
    mark, the pattern extracts the database; unless DATABASE_NAME is set
    to a non-empty string, this is the name [getDatabaseName] returns,
    whatever MONGODB_DATABASE holds. *)
Theorem X10_database_name_from_path
        (env : Env) (scheme host db tail : string) :
  truthy_string (env !! "DATABASE_NAME") = false ->
  all_chars not_slash scheme = true ->
  all_chars notSlashQuery host = true ->
  db <> "" ->
  all_chars notSlashQuery db = true ->
  (tail = "" \/ exists q, tail = "?" ++ q) ->
  match_uri (scheme ++ "://" ++ host ++ "/" ++ db ++ tail)
    = Some ("/" ++ db ++ closing tail, db, closing tail) /\
  getDatabaseName env (scheme ++ "://" ++ host ++ "/" ++ db ++ tail) = db.
Proof.
  intros Hname Hscheme Hhost Hne Hdb Htail.
  assert (Hm : match_uri (scheme ++ "://" ++ host ++ "/" ++ db ++ tail)
               = Some ("/" ++ db ++ closing tail, db, closing tail)).
  { rewrite (match_uri_skip scheme _ Hscheme).
    rewrite ?string_app_cons, ?string_app_nil. simpl.
    rewrite (matchSegment_before_slash host (db ++ tail) Hhost).
    rewrite (match_uri_skip host _ (segment_chars_not_slash _ Hhost)).
    simpl. rewrite (matchSegment_complete db tail Hne Hdb Htail).
    reflexivity. }
  split; [exact Hm|].
  exact (getDatabaseName_of_match env _ _ _ _ Hname Hm).
Qed.

Lemma X10_database_name_from_path_witness :
  getDatabaseName {[ "MONGODB_DATABASE" := "other" ]}
    "mongodb+srv://user:pw@cluster0.example.net/shop?retryWrites=true"
  = "shop".
Proof.
  apply (X10_database_name_from_path {[ "MONGODB_DATABASE" := "other" ]}
           "mongodb+srv" "user:pw@cluster0.example.net" "shop"
           "?retryWrites=true").
  - vm_compute; reflexivity.
  - reflexivity.
  - reflexivity.
  - discriminate.
  - reflexivity.
  - right. exists "retryWrites=true". reflexivity.
Defined.

(** X11: a connection string without a path, scheme://host with or
    without options, makes the pattern match at the second slash of the
    scheme separator: the whole authority (credentials, host and port)
    is taken for the database name, and MONGODB_DATABASE and the
    literal [rim-ebay] are not consulted. *)
Theorem X11_uri_without_path_names_the_host
        (env : Env) (scheme host tail : string) :
  truthy_string (env !! "DATABASE_NAME") = false ->
  all_chars not_slash scheme = true ->
  host <> "" ->
  all_chars notSlashQuery host = true ->
  (tail = "" \/ exists q, tail = "?" ++ q) ->
  getDatabaseName env (scheme ++ "://" ++ host ++ tail) = host.
Proof.
  intros Hname Hscheme Hne Hhost Htail.
  apply (getDatabaseName_of_match env _ ("/" ++ host ++ closing tail)
           host (closing tail) Hname).
  rewrite (match_uri_skip scheme _ Hscheme).
  rewrite ?string_app_cons, ?string_app_nil. simpl.
  rewrite (matchSegment_complete host tail Hne Hhost Htail).
  reflexivity.
Qed.

Lemma X11_uri_without_path_names_the_host_witness :
  getDatabaseName {[ "MONGODB_DATABASE" := "shop" ]}
                  "mongodb://localhost:27017"
  = "localhost:27017".
Proof.
  apply (X11_uri_without_path_names_the_host
           {[ "MONGODB_DATABASE" := "shop" ]} "mongodb" "localhost:27017" "").
  - vm_compute; reflexivity.
  - reflexivity.
  - discriminate.
  - reflexivity.
  - left. reflexivity.
Defined.

(** X12: a connection string whose path is empty, scheme://host/ with or
    without options free of slashes, matches nowhere; only then, and
    with DATABASE_NAME unset or empty, the name is MONGODB_DATABASE when
    that is set to a non-empty string and [rim-ebay] otherwise. *)
Theorem X12_empty_path_falls_back
        (env : Env) (scheme host tail : string) :
  truthy_string (env !! "DATABASE_NAME") = false ->
  all_chars not_slash scheme = true ->
  all_chars notSlashQuery host = true ->
  (tail = "" \/ exists q, tail = "?" ++ q /\ all_chars not_slash q = true) ->
  match_uri (scheme ++ "://" ++ host ++ "/" ++ tail) = None /\
  getDatabaseName env (scheme ++ "://" ++ host ++ "/" ++ tail)
    = match nonempty (env !! "MONGODB_DATABASE") with
      | Some name => name
      | None => "rim-ebay"
      end.
Proof.
  intros Hname Hscheme Hhost Htail.
  assert (Hm : match_uri (scheme ++ "://" ++ host ++ "/" ++ tail) = None).
  { rewrite (match_uri_skip scheme _ Hscheme).
    rewrite ?string_app_cons, ?string_app_nil. simpl.
    rewrite (matchSegment_before_slash host tail Hhost).
    rewrite (match_uri_skip host _ (segment_chars_not_slash _ Hhost)).
    simpl.
    destruct Htail as [->|(q & -> & Hq)]; [reflexivity|].
    rewrite ?string_app_cons, ?string_app_nil. simpl.
    apply match_uri_no_slash, Hq. }
  split; [exact Hm|].
  unfold getDatabaseName. rewrite Hname, Hm. simpl.
  rewrite or_else_nonempty.
  destruct (nonempty (env !! "MONGODB_DATABASE")); reflexivity.
Qed.

Lemma X12_empty_path_falls_back_witness :
  getDatabaseName {[ "MONGODB_DATABASE" := "shop" ]}
                  "mongodb://localhost:27017/?retryWrites=true"
  = "shop".
Proof.
  destruct (X12_empty_path_falls_back
              {[ "MONGODB_DATABASE" := "shop" ]}
              "mongodb" "localhost:27017" "?retryWrites=true")
    as [_ Hname].
  - vm_compute; reflexivity.
  - reflexivity.
  - reflexivity.
  - right. exists "retryWrites=true". split; reflexivity.
  - refine (eq_trans Hname _). vm_compute. reflexivity.
Defined.

(** X13: the name [getDatabaseName] returns is never the empty string,
    whatever the environment and the connection string. *)
Theorem X13_database_name_is_not_empty (env : Env) (uri : string) :
  getDatabaseName env uri <> "".
Proof.
  rewrite getDatabaseName_precedence. unfold databaseName_if_nonempty.
  assert (Hnonempty : forall v name, nonempty v = Some name -> name <> "").
  { intros [[|c s]|] name [= <-]. discriminate. }
  destruct (nonempty (env !! "DATABASE_NAME")) as [name|] eqn:Hname;
    [exact (Hnonempty _ _ Hname)|].
  destruct (match_uri uri) as [[[whole g1] g2]|] eqn:Hm;
    [exact (proj1 (match_uri_captures _ _ _ _ Hm))|].
  destruct (nonempty (env !! "MONGODB_DATABASE")) as [name|] eqn:Hdb;
    [exact (Hnonempty _ _ Hdb) | discriminate].
Qed.

(** X14: in development the connection is a singleton kept in the
    global.  The first load connects, with a client that has no options,
    and stores the promise; a later load finds the promise in the global
    and binds it without creating a client or calling the driver, so it
    gets the same module bindings whatever the driver would do then, and
    leaves the global as it is. *)
Theorem X14_development_reuses_the_connection
        (parse : string -> option MongoClientOptions -> option JsError)
        (connect : MongoClient -> Completion MongoClient)
        (env : Env) (g g1 : GlobalForMongo) (w w1 : World) (m : MongoModule) :
  env !! "NODE_ENV" = Some "development" ->
  mongodb parse connect env g w = (Normal (m, g1), w1) ->
  g1 = Some (clientPromise m) /\
  (g = None -> clientPromise m = connect (mkClient (uri m) None)) /\
  (forall p, g = Some p -> clientPromise m = p) /\
  (forall (parse' : string -> option MongoClientOptions -> option JsError)
          (connect' : MongoClient -> Completion MongoClient) (w2 : World),
      mongodb parse' connect' env g1 w2 = (Normal (m, g1), w2)).
Proof.
  intros Hdev Hload.
  destruct (mongodb_bindings parse connect env g g1 w w1 m Hload)
    as (Huri & Hname & _).
  pose proof (mongodb_promise parse connect env g g1 w w1 m Hload) as Hp.
  rewrite Hdev, bool_decide_eq_true_2 in Hp by reflexivity.
  assert (Hu : negb (String.eqb (uri m) "") = true).
  { unfold mongodb in Hload. rewrite Huri in Hload. simpl in Hload.
    destruct (negb (String.eqb (uri m) "")); [reflexivity|].
    discriminate Hload. }
  assert (Hg1 : g1 = Some (clientPromise m)).
  { destruct g as [p|]; [destruct Hp as [<- ->] | destruct Hp as (_ & _ & ->)];
      reflexivity. }
  split; [exact Hg1|]. split; [|split].
  - intros ->. destruct Hp as (_ & Hc & _). exact Hc.
  - intros p ->. destruct Hp as [Hc _]. exact Hc.
  - intros parse' connect' w2. subst g1.
    unfold mongodb. rewrite Huri, Hdev. simpl. rewrite Hu. simpl.
    rewrite <- Hname. destruct m; reflexivity.
Qed.

Lemma X14_development_reuses_the_connection_witness :
  let env : Env :=
    {[ "NODE_ENV" := "development";
       "DATABASE_URL" := "mongodb://localhost:27017/rim-ebay" ]} in
  let client := mkClient "mongodb://localhost:27017/rim-ebay" None in
  let m := mkModule "mongodb://localhost:27017/rim-ebay" "rim-ebay"
                    (Normal client) in
  mongodb sample_parse (fun _ => Throw (Error "ECONNREFUSED")) env
          (Some (Normal client)) (mkWorld 9 [])
  = (Normal (m, Some (Normal client)), mkWorld 9 []).
Proof.
  intros env client m.
  destruct (X14_development_reuses_the_connection sample_parse
              sample_connect env
              None (Some (Normal client)) sample_world sample_world m)
    as (_ & _ & _ & Hagain).
  - vm_compute; reflexivity.
  - vm_compute; reflexivity.
  - apply Hagain.
Defined.

(** X15: a failed connection is not a failure of the load.  Whether the
    module body completes does not depend on what the driver answers to
    [connect]: where it completes with one driver it completes with any
    other, binding the same connection string and database name.  When
    the promise it bound is rejected, every call of [getDb] is rejected
    with that same error: the module never connects again. *)
Theorem X15_connection_failure_surfaces_in_getDb
        (parse : string -> option MongoClientOptions -> option JsError)
        (connect connect' : MongoClient -> Completion MongoClient)
        (env : Env) (g g' : GlobalForMongo) (w w' : World) (m : MongoModule) :
  mongodb parse connect env g w = (Normal (m, g'), w') ->
  exists m2 g2,
    mongodb parse connect' env g w = (Normal (m2, g2), w') /\
    uri m2 = uri m /\
    databaseName m2 = databaseName m /\
    (forall e,
        (g = None \/ env !! "NODE_ENV" <> Some "development") ->
        (forall client, connect' client = Throw e) ->
        clientPromise m2 = Throw e) /\
    (forall e,
        clientPromise m2 = Throw e ->
        forall w2, getDb m2 w2 = (Throw e, w2)).
Proof.
  intros Hload.
  assert (Hget : forall m2 e, clientPromise m2 = Throw e ->
                              forall w2, getDb m2 w2 = (Throw e, w2)).
  { intros m2 e He w2. unfold getDb, bind, await. rewrite He. reflexivity. }
  revert Hload. unfold mongodb, new_MongoClient, bind.
  destruct (env !! "DATABASE_URL") as [u|]; simpl; [|discriminate].
  destruct (negb (String.eqb u "")); simpl; [|discriminate].
  destruct (bool_decide (env !! "NODE_ENV" = Some "development")) eqn:Hdev.
  - destruct g as [p|].
    + unfold ret. intros [= <- _ <-]. eexists _, _.
      do 3 (split; [reflexivity|]).
      split; [|intros e He; apply Hget; exact He].
      intros e [Hg|Hnot] _; [discriminate Hg|].
      apply bool_decide_eq_true in Hdev. contradiction.
    + destruct (parse u None); unfold ret, throw; [discriminate|].
      intros [= <- _ <-]. eexists _, _.
      do 3 (split; [reflexivity|]).
      split; [|intros e He; apply Hget; exact He].
      intros e _ He. apply He.
  - destruct (parse u (Some options)); unfold ret, throw; [discriminate|].
    intros [= <- _ <-]. eexists _, _.
    do 3 (split; [reflexivity|]).
    split; [|intros e He; apply Hget; exact He].
    intros e _ He. apply He.
Qed.

Lemma X15_connection_failure_surfaces_in_getDb_witness :
  exists m2 g2,
    mongodb sample_parse (fun _ => Throw (Error "ECONNREFUSED")) sample_env
            None sample_world = (Normal (m2, g2), sample_world) /\
    getDb m2 (mkWorld 5 []) = (Throw (Error "ECONNREFUSED"), mkWorld 5 []).
Proof.
  destruct (X15_connection_failure_surfaces_in_getDb sample_parse
              sample_connect (fun _ => Throw (Error "ECONNREFUSED"))
              sample_env None None sample_world sample_world
              (mkModule "mongodb://localhost:27017/rim-ebay" "rim-ebay"
                 (Normal (mkClient "mongodb://localhost:27017/rim-ebay"
                                   (Some options)))))
    as (m2 & g2 & Hload & _ & _ & Hrejected & Hfail).
  - vm_compute; reflexivity.
  - exists m2, g2. split; [exact Hload|].
    apply Hfail. apply Hrejected; [left; reflexivity | reflexivity].
Defined.

(* ================================================================== *)
(** ** Further properties of the options-by-id handler *)

(** X16: the handler answers with status 200, 400 or 500 only.  It
    writes to the console exactly when it answers 500: one entry, the
    label followed by the error as the console prints it.  The body of
    that answer is the fixed one, so nothing of the error is sent to the
    client. *)
Theorem X16_GET_logs_exactly_the_failures
        (inspect : JsError -> string)
        (execute : string -> list string -> Completion (list Row))
        (params : Completion string) (w : World) :
  exists response w',
    GET inspect execute params w = (Normal response, w') /\
    (status response = 200 \/ status response = 400 \/
     status response = 500)%Z /\
    (status response <> 500%Z -> w' = w) /\
    (status response = 500%Z ->
     body response = JsonFailure false "Erreur serveur" /\
     exists e,
       (params = Throw e \/
        exists id, params = Normal id /\
                   execute "SELECT * FROM options WHERE id = ?" [id]
                     = Throw e) /\
       w' = mkWorld (now w)
                    (("options by id GET error: " ++ inspect e)
                       :: console w)).
Proof.
  destruct params as [id|e].
  - destruct (string_dec id "") as [->|Hid].
    + eexists _, _. split; [apply GET_missing_id|]. simpl.
      split; [tauto|]. split; [reflexivity | discriminate].
    + rewrite (GET_query inspect execute id w Hid).
      destruct (execute _ [id]) as [[|row rows]|e] eqn:Hq;
        eexists _, _; (split; [reflexivity|]); simpl.
      * split; [tauto|]. split; [reflexivity | discriminate].
      * split; [tauto|]. split; [reflexivity | discriminate].
      * split; [tauto|]. split; [intros H; contradiction|].
        intros _. split; [reflexivity|].
        exists e. split; [|reflexivity].
        right. exists id. split; [reflexivity | exact Hq].
  - eexists _, _. split; [apply GET_params_rejected|]. simpl.
    split; [tauto|]. split; [intros H; contradiction|].
    intros _. split; [reflexivity|].
    exists e. split; [left|]; reflexivity.
Qed.

Lemma X16_GET_logs_exactly_the_failures_witness :
  exists response,
    GET sample_inspect sample_execute (Normal "locked") sample_world
      = (Normal response,
         mkWorld 0 ["options by id GET error: Error: SQLITE_BUSY"]) /\
    body response = JsonFailure false "Erreur serveur".
Proof.
  destruct (X16_GET_logs_exactly_the_failures sample_inspect sample_execute
              (Normal "locked") sample_world)
    as (response & w' & Hrun & _ & _ & Hfail).
  exists response.
  assert (Hstatus : status response = 500%Z).
  { vm_compute in Hrun. injection Hrun as <- _. reflexivity. }
  destruct (Hfail Hstatus) as (Hbody & e & _ & Hw).
  split; [|exact Hbody].
  rewrite Hrun. f_equal.
  vm_compute in Hrun. injection Hrun as _ <-. reflexivity.
Defined.

(** X17: the answer has status 200 exactly when the id is not empty and
    the query succeeds; its body is then the first row of the result,
    whatever rows follow it, or null when there is none. *)
Theorem X17_GET_returns_the_first_row
        (inspect : JsError -> string)
        (execute : string -> list string -> Completion (list Row))
        (params : Completion string) (w w' : World)
        (response : NextResponse) :
  GET inspect execute params w = (Normal response, w') ->
  (status response = 200%Z <->
   exists id rows,
     params = Normal id /\ id <> "" /\
     execute "SELECT * FROM options WHERE id = ?" [id] = Normal rows /\
     body response = match rows with
                     | row :: _ => JsonRow row
                     | [] => JsonNull
                     end).
Proof.
  intros Hrun. destruct params as [id|e].
  - destruct (string_dec id "") as [->|Hid].
    + rewrite GET_missing_id in Hrun. injection Hrun as <- _. simpl.
      split; [discriminate|].
      intros (id & rows & [= <-] & Hne & _). contradiction.
    + rewrite (GET_query inspect execute id w Hid) in Hrun.
      destruct (execute _ [id]) as [[|row rows]|e] eqn:Hq;
        injection Hrun as <- _; simpl.
      * split; [|reflexivity]. intros _.
        exists id, []. rewrite Hq. repeat split. exact Hid.
      * split; [|reflexivity]. intros _.
        exists id, (row :: rows). rewrite Hq. repeat split. exact Hid.
      * split; [discriminate|].
        intros (id' & rows & [= <-] & _ & Hok & _).
        rewrite Hq in Hok. discriminate Hok.
  - rewrite GET_params_rejected in Hrun. injection Hrun as <- _. simpl.
    split; [discriminate|].
    intros (id & rows & Hp & _). discriminate Hp.
Qed.

Lemma X17_GET_returns_the_first_row_witness :
  exists rows,
    sample_execute "SELECT * FROM options WHERE id = ?" ["7"] = Normal rows /\
    JsonRow [("id", JsNumber 7); ("name", JsString "GPS")]
      = match rows with
        | row :: _ => JsonRow row
        | [] => JsonNull
        end.
Proof.
  destruct (proj1 (X17_GET_returns_the_first_row sample_inspect
                     sample_execute
                     (Normal "7") sample_world sample_world
                     (mkResponse
                        (JsonRow [("id", JsNumber 7); ("name", JsString "GPS")])
                        200)
                     eq_refl) eq_refl)
    as (id & rows & Hid & _ & Hq & Hbody).
  injection Hid as <-.
  exists rows. split; [exact Hq | exact Hbody].
Defined.

(** X18: the handler asks the database one thing only, the fixed
    statement with the id as its single bound argument, and nothing at
    all when the id is empty or the parameters are rejected: two
    database clients that agree on that one query get the same answer
    and the same console. *)
Theorem X18_GET_runs_one_bound_query
        (inspect : JsError -> string)
        (execute execute' : string -> list string -> Completion (list Row))
        (params : Completion string) (w : World) :
  (forall id,
      params = Normal id -> id <> "" ->
      execute "SELECT * FROM options WHERE id = ?" [id]
        = execute' "SELECT * FROM options WHERE id = ?" [id]) ->
  GET inspect execute params w = GET inspect execute' params w.
Proof.
  intros Hsame. destruct params as [id|e]; [|reflexivity].
  destruct (string_dec id "") as [->|Hid]; [reflexivity|].
  rewrite !GET_query by exact Hid.
  rewrite (Hsame id eq_refl Hid). reflexivity.
Qed.

Lemma X18_GET_runs_one_bound_query_witness :
  GET sample_inspect sample_execute (Normal "42") sample_world
  = GET sample_inspect (fun sql _ =>
           if String.eqb sql "SELECT * FROM options WHERE id = ?"
           then Normal [] else Throw (Error "no such table"))
        (Normal "42") sample_world.
Proof.
  apply (X18_GET_runs_one_bound_query sample_inspect sample_execute
           (fun sql _ =>
              if String.eqb sql "SELECT * FROM options WHERE id = ?"
              then Normal [] else Throw (Error "no such table"))
           (Normal "42") sample_world).
  intros id [= <-] _. reflexivity.
Defined.

(* ================================================================== *)
(** ** The registration page *)

(** A locale that is a path segment keeps the paths built on it out of
    the guard's prefixes when what follows the locale is not [/my...] or
    [/admin...]. *)
Lemma protectedPath_api (locale rest : string) :
  all_chars not_slash locale = true ->
  protectedPath ("/" ++ locale ++ "/api" ++ rest) = false.
Proof.
  intros Hlocale. apply not_true_iff_false. intros Hprot.
  apply protectedPath_iff in Hprot. rewrite !startsWith_iff in Hprot.
  assert (Hthird : forall c1 c2 c3 l,
             locale = String c1 (String c2 (String c3 l)) ->
             c3 <> "/"%char).
  { intros c1 c2 c3 l ->. rewrite !all_chars_cons in Hlocale.
    apply andb_true_iff in Hlocale as [_ Hlocale].
    apply andb_true_iff in Hlocale as [_ Hlocale].
    apply andb_true_iff in Hlocale as [Hc3 _].
    unfold not_slash in Hc3. apply negb_true_iff in Hc3.
    apply Ascii.eqb_neq, Hc3. }
  destruct Hprot as [[r H]|[[r H]|[r H]]];
    destruct locale as [|c1 [|c2 [|c3 l]]];
    rewrite ?string_app_cons, ?string_app_nil in H;
    try discriminate H;
    injection H as _ _ Hc3 _;
    exact (Hthird _ _ _ _ eq_refl Hc3).
Qed.

(** X19: the page renders for every locale, logging two lines, and hands
    the form the locale as [lang] and the address
    [/<locale>/api/telegram] as [urlboot].  For a locale that is a path
    segment, this address is outside the guard's protected prefixes: the
    guard lets a request to it pass with any cookies, so the form can
    reach it before the visitor has a session. *)
Theorem X19_register_form_reaches_its_endpoint
        (jwtVerify : Z -> string -> list Byte.byte -> Completion JWTPayload)
        (env : Env) (locale : string) (w : World) :
  all_chars not_slash locale = true ->
  exists element,
    RegisterPage (Normal locale) w
      = (Normal element,
         mkWorld (now w)
                 (("parmas test " ++ locale) :: "local cote server"
                    :: console w)) /\
    lang element = locale /\
    urlboot element = "/" ++ locale ++ "/api/telegram" /\
    forall (query : string) (cookieStore : CookieStore) (w2 : World),
      outcome (middleware jwtVerify env
                 (mkRequest (mkURL (urlboot element) query) cookieStore)) w2
        = Normal PassThrough.
Proof.
  intros Hlocale. eexists. split; [reflexivity|].
  split; [reflexivity|]. split; [reflexivity|].
  intros query cookieStore w2. simpl.
  pose proof (protectedPath_api locale "/telegram" Hlocale) as Hpub.
  destruct (string_dec ("/" ++ locale ++ "/api/telegram") "/favicon.ico")
    as [Hico|Hico].
  - unfold outcome, result.
    rewrite middleware_favicon by exact Hico. reflexivity.
  - destruct (getUserFromCookies_total jwtVerify env cookieStore w2)
      as (userData & w3 & Hv).
    unfold outcome, result.
    rewrite (middleware_after_verifier _ _
               (mkRequest (mkURL ("/" ++ locale ++ "/api/telegram") query)
                          cookieStore)
               w2 w3 userData Hico Hv).
    simpl. rewrite ?string_app_cons, ?string_app_nil in Hpub.
    rewrite ?string_app_cons, ?string_app_nil.
    rewrite Hpub. reflexivity.
Qed.

Lemma X19_register_form_reaches_its_endpoint_witness :
  exists element,
    RegisterPage (Normal "ar") sample_world
      = (Normal element,
         mkWorld 0 ["parmas test ar"; "local cote server"]) /\
    urlboot element = "/ar/api/telegram".
Proof.
  destruct (X19_register_form_reaches_its_endpoint sample_jwtVerify
              sample_env "ar" sample_world)
    as (element & Hrun & _ & Hurl & _).
  - reflexivity.
  - exists element. split; [exact Hrun | exact Hurl].
Defined.

(* ================================================================== *)
(** ** The matcher *)

(** What is left of the input after each kind of expression. *)
Lemma rems_Lit (c : ascii) (s x : string) :
  In x (rems (Lit c) s) <-> s = String c x.
Proof.
  destruct s as [|d s]; simpl; [split; [tauto | discriminate]|].
  destruct (Ascii.eqb_spec d c) as [->|Hne]; simpl.
  - split; [intros [->|[]]; reflexivity | intros [= ->]; left; reflexivity].
  - split; [tauto | intros [= -> _]; contradiction].
Qed.

Lemma rems_Dot (s x : string) :
  In x (rems Dot s) <-> exists c, s = String c x /\ line_terminator c = false.
Proof.
  destruct s as [|d s]; simpl.
  - split; [tauto | intros (c & H & _); discriminate H].
  - destruct (line_terminator d) eqn:Hd; simpl.
    + split; [tauto|]. intros (c & [= -> _] & Hc). congruence.
    + split.
      * intros [->|[]]. exists d. split; [reflexivity | exact Hd].
      * intros (c & [= _ ->] & _). left; reflexivity.
Qed.

Lemma rems_Cat (r1 r2 : Regex) (s x : string) :
  In x (rems (Cat r1 r2) s) <->
  exists y, In y (rems r1 s) /\ In x (rems r2 y).
Proof. simpl. apply in_flat_map. Qed.

Lemma rems_Alt (r1 r2 : Regex) (s x : string) :
  In x (rems (Alt r1 r2) s) <-> In x (rems r1 s) \/ In x (rems r2 s).
Proof. simpl. apply in_app_iff. Qed.

Lemma rems_Str (p s x : string) :
  In x (rems (Str p) s) <-> s = p ++ x.
Proof.
  revert s. induction p as [|c p IH]; intros s.
  - simpl. rewrite string_app_nil.
    split; [intros [->|[]]; reflexivity | intros ->; left; reflexivity].
  - change (Str (String c p)) with (Cat (Lit c) (Str p)).
    rewrite rems_Cat, string_app_cons. split.
    + intros (y & Hy & Hx). apply rems_Lit in Hy. apply IH in Hx.
      rewrite Hy, Hx. reflexivity.
    + intros ->. exists (p ++ x). rewrite rems_Lit, IH. split; reflexivity.
Qed.

Lemma star_rems_Dot (fuel : nat) (s : string) :
  (String.length s <= fuel)%nat ->
  star_rems (rems Dot) fuel s = dot_suffixes s.
Proof.
  revert s. induction fuel as [|fuel IH]; intros s Hlen.
  - destruct s; [reflexivity | simpl in Hlen; inversion Hlen].
  - destruct s as [|c s]; [reflexivity|].
    simpl in Hlen. apply le_S_n in Hlen.
    simpl. destruct (line_terminator c); [reflexivity|]. simpl.
    rewrite app_nil_r. f_equal.
    destruct (Nat.ltb_spec (String.length s) (S (String.length s)))
      as [_|Hbad]; [apply IH, Hlen|].
    exfalso. apply (Nat.nle_succ_diag_l _ Hbad).
Qed.

Lemma dot_suffixes_In (s x : string) :
  In x (dot_suffixes s) <->
  exists a, s = a ++ x /\ all_chars not_terminator a = true.
Proof.
  induction s as [|c s IH].
  - simpl. split.
    + intros [<-|[]]. exists "". split; reflexivity.
    + intros (a & Ha & _). destruct a; [|discriminate Ha].
      left. rewrite string_app_nil in Ha. exact Ha.
  - change (dot_suffixes (String c s))
      with (String c s :: if line_terminator c then [] else dot_suffixes s).
    split.
    + intros [<-|Hin]; [exists ""; split; reflexivity|].
      destruct (line_terminator c) eqn:Hc; [destruct Hin|].
      apply IH in Hin as (a & -> & Ha).
      exists (String c a). split; [reflexivity|].
      rewrite all_chars_cons, Ha. unfold not_terminator. rewrite Hc.
      reflexivity.
    + intros (a & Ha & Hfree). destruct a as [|d a].
      * left. rewrite string_app_nil in Ha. exact Ha.
      * right. rewrite string_app_cons in Ha. injection Ha as <- ->.
        rewrite all_chars_cons in Hfree.
        apply andb_true_iff in Hfree as [Hc Hfree].
        unfold not_terminator in Hc. apply negb_true_iff in Hc.
        rewrite Hc. apply IH. exists a. split; [reflexivity | exact Hfree].
Qed.

Lemma rems_Star_Dot (s x : string) :
  In x (rems (Star Dot) s) <->
  exists a, s = a ++ x /\ all_chars not_terminator a = true.
Proof.
  change (rems (Star Dot) s)
    with (star_rems (rems Dot) (String.length s) s).
  rewrite star_rems_Dot by apply Nat.le_refl. apply dot_suffixes_In.
Qed.

Lemma rems_NotAhead (r : Regex) (s x : string) :
  In x (rems (NotAhead r) s) <-> x = s /\ rems r s = [].
Proof.
  simpl. destruct (rems r s); simpl.
  - split; [intros [<-|[]]; split; reflexivity | intros [-> _]; left;
            reflexivity].
  - split; [tauto | intros [_ H]; discriminate H].
Qed.

Lemma nil_iff_no_element {A} (l : list A) : l = [] <-> forall x, ~ In x l.
Proof.
  destruct l as [|a l]; simpl.
  - split; [intros _ x []| reflexivity].
  - split; [discriminate | intros H; destruct (H a); left; reflexivity].
Qed.

Lemma string_app_nil_r (s : string) : s ++ "" = s.
Proof.
  induction s as [|c s IH]; [reflexivity|].
  rewrite string_app_cons, IH. reflexivity.
Qed.

(** A character that fails the test splits the string around it. *)
Lemma all_chars_false (f : ascii -> bool) (s : string) :
  all_chars f s = false <->
  exists a c b, s = a ++ String c b /\ f c = false.
Proof.
  induction s as [|d s IH].
  - split; [discriminate|]. intros (a & c & b & H & _).
    destruct a; discriminate H.
  - rewrite all_chars_cons, andb_false_iff, IH. split.
    + intros [Hd|(a & c & b & -> & Hc)].
      * exists "", d, s. split; [reflexivity | exact Hd].
      * exists (String d a), c, b. split; [reflexivity | exact Hc].
    + intros (a & c & b & H & Hc). destruct a as [|e a].
      * rewrite string_app_nil in H. injection H as -> ->. left; exact Hc.
      * rewrite string_app_cons in H. injection H as -> ->.
        right. exists a, c, b. split; [reflexivity | exact Hc].
Qed.

(** The pattern on a path: the slash, no excluded start, and no line
    terminator up to the end. *)
Lemma matcher_selects_rest (path : string) :
  matcher_selects path = true <->
  exists rest,
    path = "/" ++ rest /\
    rems excluded rest = [] /\
    all_chars not_terminator rest = true.
Proof.
  unfold matcher_selects, full_match, matcher.
  rewrite existsb_exists. split.
  - intros (x & Hin & Hx). apply String.eqb_eq in Hx. subst x.
    apply rems_Cat in Hin as (rest & Hslash & Hin).
    apply rems_Lit in Hslash.
    apply rems_Cat in Hin as (z & Hahead & Hstar).
    apply rems_NotAhead in Hahead as [-> Hnone].
    apply rems_Star_Dot in Hstar as (a & Ha & Hfree).
    rewrite string_app_nil_r in Ha. subst a.
    exists rest. repeat split; assumption.
  - intros (rest & -> & Hnone & Hfree).
    exists "". split; [|reflexivity].
    apply rems_Cat. exists rest. split; [apply rems_Lit; reflexivity|].
    apply rems_Cat. exists rest. split.
    + apply rems_NotAhead. split; [reflexivity | exact Hnone].
    + apply rems_Star_Dot. exists rest.
      split; [rewrite string_app_nil_r; reflexivity | exact Hfree].
Qed.

(** A dot that no line terminator precedes is an excluded start. *)
Lemma excluded_dotted (a b : string) :
  all_chars not_terminator a = true ->
  In b (rems excluded (a ++ String "." b)).
Proof.
  intros Ha. unfold excluded. rewrite !rems_Alt. right; right; left.
  apply rems_Cat. exists (String "." b). split.
  - apply rems_Star_Dot. exists a. split; [reflexivity | exact Ha].
  - apply rems_Cat. exists b. split; [apply rems_Lit; reflexivity|].
    apply rems_Star_Dot. exists "". split; reflexivity.
Qed.

(** The excluded starts of a rest without line terminator. *)
Lemma excluded_nil_iff (rest : string) :
  all_chars not_terminator rest = true ->
  rems excluded rest = [] <->
  all_chars not_dot rest = true /\
  (forall t, rest <> "api" ++ t) /\
  (forall t, rest <> "static" ++ t) /\
  (forall t, rest <> "_next" ++ t) /\
  (forall c t, rest <> "favicon" ++ String c ("ico" ++ t)) /\
  (forall c t, rest <> "robots" ++ String c ("txt" ++ t)).
Proof.
  intros Hfree. rewrite nil_iff_no_element. split.
  - intros Hnone.
    assert (Hwild : forall p c q t,
               rest = p ++ String c (q ++ t) ->
               In t (rems (Cat (Str p) (Cat Dot (Str q))) rest)).
    { intros p c q t ->.
      apply rems_Cat. exists (String c (q ++ t)).
      split; [apply rems_Str; reflexivity|].
      apply rems_Cat. exists (q ++ t).
      split; [|apply rems_Str; reflexivity].
      apply rems_Dot. exists c. split; [reflexivity|].
      rewrite all_chars_app, all_chars_cons in Hfree.
      apply andb_true_iff in Hfree as [_ Hfree].
      apply andb_true_iff in Hfree as [Hc _].
      unfold not_terminator in Hc. apply negb_true_iff, Hc. }
    split; [|split; [|split; [|split; [|split]]]].
    + destruct (all_chars not_dot rest) eqn:Hdot; [reflexivity|].
      exfalso. apply all_chars_false in Hdot as (a & c & b & -> & Hc).
      unfold not_dot in Hc. apply negb_false_iff, Ascii.eqb_eq in Hc.
      subst c. rewrite all_chars_app in Hfree.
      apply andb_true_iff in Hfree as [Ha _].
      exact (Hnone b (excluded_dotted a b Ha)).
    + intros t ->. apply (Hnone t). unfold excluded. rewrite !rems_Alt.
      left. apply rems_Str. reflexivity.
    + intros t ->. apply (Hnone t). unfold excluded. rewrite !rems_Alt.
      right; left. apply rems_Str. reflexivity.
    + intros t ->. apply (Hnone t). unfold excluded. rewrite !rems_Alt.
      right; right; right; left. apply rems_Str. reflexivity.
    + intros c t Hrest. apply (Hnone t). unfold excluded.
      rewrite !rems_Alt. right; right; right; right; left.
      apply (Hwild "favicon" c "ico" t Hrest).
    + intros c t Hrest. apply (Hnone t). unfold excluded.
      rewrite !rems_Alt. right; right; right; right; right.
      apply (Hwild "robots" c "txt" t Hrest).
  - intros (Hdot & Hapi & Hstatic & Hnext & Hico & Htxt) x.
    unfold excluded. rewrite !rems_Alt.
    intros [H|[H|[H|[H|[H|H]]]]].
    + apply rems_Str in H. exact (Hapi x H).
    + apply rems_Str in H. exact (Hstatic x H).
    + apply rems_Cat in H as (y & Hy & H).
      apply rems_Star_Dot in Hy as (a & -> & _).
      apply rems_Cat in H as (z & Hz & _). apply rems_Lit in Hz. subst y.
      rewrite all_chars_app, all_chars_cons in Hdot.
      apply andb_true_iff in Hdot as [_ Hdot].
      apply andb_true_iff in Hdot as [Hdot _]. discriminate Hdot.
    + apply rems_Str in H. exact (Hnext x H).
    + apply rems_Cat in H as (y & Hy & H). apply rems_Str in Hy.
      apply rems_Cat in H as (z & Hz & H).
      apply rems_Dot in Hz as (c & -> & _). apply rems_Str in H.
      subst z. exact (Hico c x Hy).
    + apply rems_Cat in H as (y & Hy & H). apply rems_Str in Hy.
      apply rems_Cat in H as (z & Hz & H).
      apply rems_Dot in Hz as (c & -> & _). apply rems_Str in H.
      subst z. exact (Htxt c x Hy).
Qed.

(** X20: what the matcher selects.  A path is matched from its first to
    its last character exactly when it is a slash followed by a rest
    that holds no dot and no line terminator, does not start with [api],
    [static] or [_next], and does not start with [favicon] or [robots],
    any one character, and [ico] or [txt]. *)
Theorem X20_matcher_selects_iff (path : string) :
  matcher_selects path = true <->
  exists rest,
    path = "/" ++ rest /\
    all_chars not_terminator rest = true /\
    all_chars not_dot rest = true /\
    (forall t, rest <> "api" ++ t) /\
    (forall t, rest <> "static" ++ t) /\
    (forall t, rest <> "_next" ++ t) /\
    (forall c t, rest <> "favicon" ++ String c ("ico" ++ t)) /\
    (forall c t, rest <> "robots" ++ String c ("txt" ++ t)).
Proof.
  rewrite matcher_selects_rest. split.
  - intros (rest & Hpath & Hnone & Hfree).
    exists rest. split; [exact Hpath|]. split; [exact Hfree|].
    apply (excluded_nil_iff rest Hfree), Hnone.
  - intros (rest & Hpath & Hfree & Hconds).
    exists rest. split; [exact Hpath|]. split; [|exact Hfree].
    apply (excluded_nil_iff rest Hfree), Hconds.
Qed.

Lemma X20_matcher_selects_iff_witness :
  matcher_selects "/fr/api/telegram" = true.
Proof.
  apply (proj2 (X20_matcher_selects_iff "/fr/api/telegram")).
  exists "fr/api/telegram".
  repeat split; try reflexivity; intros; discriminate.
Defined.

(** X21: no path with a dot in it matches the pattern of the matcher
    when the pattern is anchored on the whole path.  [/favicon.ico] does
    not match it; neither does a path under a protected prefix that
    holds a dot, which [middleware] itself classifies as protected. *)
Theorem X21_dotted_paths_do_not_match :
  (forall a b, matcher_selects (a ++ "." ++ b) = false) /\
  matcher_selects "/favicon.ico" = false /\
  (forall a b,
      protectedPath ("/fr/my" ++ a ++ "." ++ b) = true /\
      matcher_selects ("/fr/my" ++ a ++ "." ++ b) = false).
Proof.
  assert (Hdot : forall a b, matcher_selects (a ++ "." ++ b) = false).
  { intros a b. apply not_true_iff_false. intros Hsel.
    apply matcher_selects_rest in Hsel as (rest & Hpath & Hnone & Hfree).
    rewrite ?string_app_cons, ?string_app_nil in Hpath.
    destruct a as [|c a];
      rewrite ?string_app_cons, ?string_app_nil in Hpath;
      [discriminate Hpath|].
    injection Hpath as -> <-.
    rewrite all_chars_app in Hfree. apply andb_true_iff in Hfree as [Ha _].
    rewrite nil_iff_no_element in Hnone.
    exact (Hnone b (excluded_dotted a b Ha)). }
  split; [exact Hdot|]. split; [exact (Hdot "/favicon" "ico")|].
  intros a b. split.
  - apply protectedPath_iff. left. apply startsWith_app.
  - rewrite <- string_app_assoc. apply Hdot.
Qed.

(** X22: the guard sees every path it protects that holds no dot and no
    line terminator: a path under [/fr/my], [/ar/my] or [/fr/admin]
    without them is selected by the matcher. *)
Theorem X22_protected_plain_paths_are_selected (path : string) :
  protectedPath path = true ->
  all_chars not_dot path = true ->
  all_chars not_terminator path = true ->
  matcher_selects path = true.
Proof.
  intros Hprot Hdot Hfree.
  apply protectedPath_iff in Hprot. rewrite !startsWith_iff in Hprot.
  apply matcher_selects_rest.
  destruct path as [|c rest];
    [destruct Hprot as [[r H]|[[r H]|[r H]]]; discriminate H|].
  assert (Hc : c = "/"%char)
    by (destruct Hprot as [[r H]|[[r H]|[r H]]];
        rewrite string_app_cons in H; injection H as -> _; reflexivity).
  subst c. exists rest. split; [reflexivity|].
  rewrite all_chars_cons in Hdot, Hfree.
  apply andb_true_iff in Hdot as [_ Hdot].
  apply andb_true_iff in Hfree as [_ Hfree].
  split; [|exact Hfree].
  apply (excluded_nil_iff rest Hfree). split; [exact Hdot|].
  destruct Hprot as [[r H]|[[r H]|[r H]]];
    rewrite ?string_app_cons, ?string_app_nil in H; injection H as ->;
    repeat split; intros; rewrite ?string_app_cons; discriminate.
Qed.

Lemma X22_protected_plain_paths_are_selected_witness :
  matcher_selects "/ar/my/list" = true.
Proof.
  apply (X22_protected_plain_paths_are_selected "/ar/my/list");
    reflexivity.
Defined.

Lemma X5_protected_is_string_prefix_witness :
  protectedPath "/fr/mystere" = true.
Proof.
  apply (proj2 (X5_protected_is_string_prefix "/fr/mystere")).
  exists "stere". left. reflexivity.
Defined.

Lemma X9_match_uri_is_the_leftmost_match_witness :
  exists pre post,
    "mongodb://localhost:27017/rim-ebay" = pre ++ "/rim-ebay" ++ post /\
    post = "".
Proof.
  destruct (proj2 (X9_match_uri_is_the_leftmost_match
                     "mongodb://localhost:27017/rim-ebay")
              "/rim-ebay" "rim-ebay" "" eq_refl)
    as (pre & post & Heq & _ & _ & _ & Hend & _).
  exists pre, post. split; [exact Heq|].
  destruct Hend as [[_ Hpost]|Hq]; [exact Hpost | discriminate Hq].
Defined.
